(** * atlas-co2: the carbon estimation pipeline of [co2.js]

    A shallow embedding of the estimator of [src/co2.js] and the proofs of
    its specified properties.

    - JavaScript numbers are IEEE binary64 numbers ([float]).  The program
      text is written over the interface [Number] of the operations it
      uses (literals, [+], [*], [/]), of which [float] is the instance.
    - Strings are [string]; [toUpperCase] acts on the letters a-z and leaves
      every other character alone (the provider and region names of the
      reference tables are ASCII).
    - A JavaScript exception is the [Throw] case of [result]; every
      exception of the modelled code is a [TypeError] (a property read on
      [undefined], or [reduce] of an empty array with no initial value).
    - The module-level tables [cloudProviders], [ciAggregated] and
      [hardwareSpec], the built-in [parseFloat] and the monitoring API are
      section variables. *)

From Stdlib Require Import ZArith QArith Floats String Ascii List Lia.
From stdpp Require Import base option list gmap strings.

Set Warnings "-inexact-float".
Set Default Proof Using "Type".

Local Open Scope string_scope.

(** ** Numbers *)

Class Number (num : Type) : Type := {
  lit : Q -> num;            (* a numeric literal of the program text *)
  nadd : num -> num -> num;  (* + *)
  nmul : num -> num -> num;  (* * *)
  ndiv : num -> num -> num   (* / *)
}.
Arguments lit {num _} _%_Q.

Declare Scope num_scope.
Delimit Scope num_scope with num.
Infix "+" := nadd : num_scope.
Infix "*" := nmul : num_scope.
Infix "/" := ndiv : num_scope.

(** The binary64 value nearest to an integer. *)
Definition Z2F (z : Z) : float := SF2Prim (binary_normalize prec emax z 0 false).

(** A decimal literal [n/d] denotes the binary64 value nearest to it: the
    correctly rounded quotient of the two integers. *)
#[export] Instance float_Number : Number float := {|
  lit q := PrimFloat.div (Z2F (Qnum q)) (Z2F (Zpos (Qden q)));
  nadd := PrimFloat.add;
  nmul := PrimFloat.mul;
  ndiv := PrimFloat.div
|}.

(** [array.length] as a number. *)
Definition ofLength {num : Type} `{!Number num} (n : nat) : num := lit (inject_Z (Z.of_nat n)).

(** ** Exceptions *)

Inductive JsError : Type := TypeError.

Inductive result (A : Type) : Type :=
  | Ok (a : A)
  | Throw (e : JsError).
Arguments Ok {A} a.
Arguments Throw {A} e.

#[export] Instance result_ret : MRet result := fun _ a => Ok a.
#[export] Instance result_bind : MBind result := fun _ _ f m =>
  match m with
  | Ok a => f a
  | Throw e => Throw e
  end.
#[export] Instance result_fmap : FMap result := fun _ _ f m =>
  match m with
  | Ok a => Ok (f a)
  | Throw e => Throw e
  end.

(** Reading a property of a value that may be [undefined]. *)
Definition defined {A : Type} (v : option A) : result A :=
  match v with
  | Some a => Ok a
  | None => Throw TypeError
  end.

(** [Array.prototype.find] with a callback that may throw: [Ok None] is
    [undefined]. *)
Fixpoint find_r {A : Type} (f : A -> result bool) (l : list A) : result (option A) :=
  match l with
  | [] => Ok None
  | x :: l' =>
      b ← f x;
      if b : bool then Ok (Some x) else find_r f l'
  end.

(** [Array.prototype.find] with a total callback. *)
Fixpoint find_js {A : Type} (f : A -> bool) (l : list A) : option A :=
  match l with
  | [] => None
  | x :: l' => if f x then Some x else find_js f l'
  end.

(** [array.reduce(f)] with no initial value: a [TypeError] on the empty
    array, otherwise a left fold that starts from the first element. *)
Definition reduce_noinit {A : Type} (f : A -> A -> A) (l : list A) : result A :=
  match l with
  | [] => Throw TypeError
  | x :: l' => Ok (fold_left f l' x)
  end.

(** ** Strings *)

Definition toUpperCaseChar (c : ascii) : ascii :=
  let n := nat_of_ascii c in
  if (97 <=? n)%nat && (n <=? 122)%nat then ascii_of_nat (n - 32) else c.

Fixpoint toUpperCase (s : string) : string :=
  match s with
  | EmptyString => EmptyString
  | String c s' => String (toUpperCaseChar c) (toUpperCase s')
  end.

(** The characters matched by the regular expression [/(_|-| )/]. *)
Definition isSeparator (c : ascii) : bool :=
  Ascii.eqb c "_" || Ascii.eqb c "-" || Ascii.eqb c " ".

(** [s.replace(/(_|-| )/g, "")]. *)
Fixpoint stripSeparators (s : string) : string :=
  match s with
  | EmptyString => EmptyString
  | String c s' =>
      if isSeparator c then stripSeparators s' else String c (stripSeparators s')
  end.

(** [s.replace(pat, "")] for a string pattern: the first occurrence goes. *)
Definition removeFirst (pat s : string) : string :=
  match index 0 pat s with
  | Some i =>
      substring 0 i s
      ++ substring (i + String.length pat) (String.length s - (i + String.length pat)) s
  | None => s
  end.

(** [s.split(sep)] for a one-character separator. *)
Fixpoint split (sep : ascii) (s : string) : list string :=
  match s with
  | EmptyString => [EmptyString]
  | String c s' =>
      if Ascii.eqb c sep then EmptyString :: split sep s'
      else match split sep s' with
           | x :: r => String c x :: r
           | [] => [String c EmptyString]
           end
  end.

(** The region key both sides of the datacenter comparison are reduced to:
    upper case, separators removed. *)
Definition normalizeRegion (s : string) : string := stripSeparators (toUpperCase s).

(** [fs.readFileSync(f).toString().split("\n").map(l => l.split(","))]. *)
Definition parseCsv (content : string) : list (list string) :=
  map (split ",") (split "010" content).

(** ** Configuration constants *)

Definition METRICS_MEMORY_available : string := "SYSTEM_MEMORY_AVAILABLE".

(** [Object.values(METRICS.CPU)], in insertion order: user, kernel, nice,
    iowait, irq, softirq, guest, steal. *)
Definition METRICS_CPU : list string :=
  [ "SYSTEM_NORMALIZED_CPU_USER";
    "SYSTEM_NORMALIZED_CPU_KERNEL";
    "SYSTEM_NORMALIZED_CPU_NICE";
    "SYSTEM_NORMALIZED_CPU_IOWAIT";
    "SYSTEM_NORMALIZED_CPU_IRQ";
    "SYSTEM_NORMALIZED_CPU_SOFTIRQ";
    "SYSTEM_NORMALIZED_CPU_GUEST";
    "SYSTEM_NORMALIZED_CPU_STEAL" ].

(** ** The estimator *)

Section Estimator.
Context {num : Type} `{!Number num}.

Record GranularityParams : Type := {
  granularity : string;
  period : string;
  runningTimeHours : num
}.

Definition GRANULARITY_PARAMS : GranularityParams :=
  {| granularity := "PT5M"; period := "P1D"; runningTimeHours := lit 24 |}.

(** *** Telemetry *)

Record DataPoint : Type := { timestamp : string; value : num }.
Record Measurement : Type := { name : string; dataPoints : list DataPoint }.
Record Measurements : Type := { measurements : list Measurement }.

Definition getMeasurement (ms : Measurements) (metric : string)
  : result (list DataPoint) :=
  m ← defined (find_js (fun m => bool_decide (name m = metric)) (measurements ms));
  Ok (dataPoints m).

Definition getDatapointsAvg (datapoints : list DataPoint) : num :=
  let values := map value datapoints in
  let total := fold_left (fun prev current => prev + current)%num values (lit 0) in
  let avg := (total / ofLength (length datapoints))%num in
  avg.

Definition getMemoryUsage (ms : Measurements) : result num :=
  datapoints ← getMeasurement ms METRICS_MEMORY_available;
  let average := getDatapointsAvg datapoints in
  Ok average.

(** The [for] loop of [getCpuUsage], from index [i] on, with the running
    [totalUsage]. *)
Fixpoint cpuLoop (ms : Measurements) (metrics : list string) (totalUsage : num)
  : result num :=
  match metrics with
  | [] => Ok totalUsage
  | metric :: rest =>
      datapoints ← getMeasurement ms metric;
      let average := getDatapointsAvg datapoints in
      cpuLoop ms rest (totalUsage + average)%num
  end.

Definition getCpuUsage (ms : Measurements) : result num :=
  let metrics := METRICS_CPU in
  cpuLoop ms metrics (lit 0).

(** *** Clusters and processes *)

Record ProviderSettings : Type := {
  instanceSizeName : string;
  providerName : string;
  regionName : string
}.

Record Cluster : Type := {
  c_name : string;
  c_providerSettings : ProviderSettings;
  c_mongoURI : string;
  c_diskSizeGB : num
}.

Record Process : Type := {
  p_id : string;
  p_cluster : string;
  p_providerSettings : ProviderSettings;
  p_diskSizeGb : num;
  p_PUE : num;
  p_gCO2ekWh : num
}.

Record Hardware : Type := { CPU : num; memory : num }.

Record ProcessUsage : Type := {
  u_processId : string;
  u_clusterName : string;
  u_providerName : string;
  u_instanceSizeName : string;
  u_region : string;
  u_memoryUsageGb : num;
  u_cpuUsage : num;
  u_diskSizeGb : num;
  u_nCpu : num;
  u_memoryAvail : num;
  u_PUE : num;
  u_gCO2ekWh : num
}.

(** *** Reference data and collaborators *)

(** The built-in [parseFloat], on strings. *)
Variable parseFloat : string -> num.
(** The rows of [cloudProviders_datacenters.csv] and [CI_aggregated.csv]. *)
Variable cloudProviders : list (list string).
Variable ciAggregated : list (list string).
(** [hardwareSpec.json]: instance size, then provider. *)
Variable hardwareSpec : gmap string (gmap string Hardware).
(** The measurements request of a process; [None] is the [undefined] that
    [fetch] returns for an error payload. *)
Variable fetchMeasurements : string -> option Measurements.

(** [parseFloat(v)] for a field that may be [undefined]: the argument is
    converted to a string first. *)
Definition parseFloatField (v : option string) : num :=
  match v with
  | Some s => parseFloat s
  | None => parseFloat "undefined"
  end.

(** The callback of [cloudProviders.find]: the region is only looked at
    when the provider matches ([&&]). *)
Definition matchesDatacenter (providerName regionName : string) (c : list string)
  : result bool :=
  c0 ← defined (c !! 0%nat);
  if bool_decide (toUpperCase c0 = providerName) then
    c1 ← defined (c !! 1%nat);
    Ok (bool_decide (stripSeparators (toUpperCase c1) = stripSeparators regionName))
  else Ok false.

(** Lines 117-119: the datacenter row of a provider and a region, both
    already in upper case. *)
Definition findCloudProvider (providerName regionName : string)
  : result (option (list string)) :=
  find_r (matchesDatacenter providerName regionName) cloudProviders.

(** Lines 110-113: the default PUE of a provider (already in upper case). *)
Definition defaultPUE (providerName : string) : num :=
  let PUE := lit 1.67 in
  let PUE := if bool_decide (providerName = "GCP") then lit 1.11 else PUE in
  let PUE := if bool_decide (providerName = "AZURE") then lit 1.125 else PUE in
  let PUE := if bool_decide (providerName = "AWS") then lit 1.2 else PUE in
  PUE.

(** Lines 107-129: the PUE and the carbon intensity of a cluster. *)
Definition resolveFactors (settings : ProviderSettings) : result (num * num) :=
  let providerName := toUpperCase (providerName settings) in
  let regionName := toUpperCase (regionName settings) in
  let PUE := defaultPUE providerName in
  cloudProvider ← findCloudProvider providerName regionName;
  let gCO2ekWh := lit 475 in
  match cloudProvider with
  | Some cloudProvider =>
      let PUE :=
        if bool_decide (cloudProvider !! 6%nat ≠ Some "")
        then parseFloatField (cloudProvider !! 6%nat) else PUE in
      let ci :=
        find_js (fun ci => bool_decide (ci !! 0%nat = cloudProvider !! 2%nat)) ciAggregated in
      let gCO2ekWh :=
        match ci with
        | Some ci => parseFloatField (ci !! 4%nat)
        | None => lit 475
        end in
      Ok (PUE, gCO2ekWh)
  | None => Ok (PUE, gCO2ekWh)
  end.

(** Lines 135-146: one process per host of the connection string. *)
Definition clusterProcesses (c : Cluster) (PUE gCO2ekWh : num) : list Process :=
  let hosts := split "," (removeFirst "mongodb://" (c_mongoURI c)) in
  map (fun p => {| p_id := p;
                   p_cluster := c_name c;
                   p_providerSettings := c_providerSettings c;
                   p_diskSizeGb := c_diskSizeGB c;
                   p_PUE := PUE;
                   p_gCO2ekWh := gCO2ekWh |}) hosts.

(** The callback of [clusters.map] (lines 100-148), with the array
    [processes] it pushes to as explicit state; [None] is the [undefined]
    returned for a cluster below M10. *)
Definition clusterStep (processes : list Process) (c : Cluster)
  : result (list Process * option Cluster) :=
  let instance := instanceSizeName (c_providerSettings c) in
  if bool_decide (instance = "M0") || bool_decide (instance = "M2")
     || bool_decide (instance = "M5")
  then Ok (processes, None)
  else
    '(PUE, gCO2ekWh) ← resolveFactors (c_providerSettings c);
    Ok ((processes ++ clusterProcesses c PUE gCO2ekWh)%list, Some c).

(** [clusters.map(...)]: the callback over the clusters in order. *)
Fixpoint mapClusters (processes : list Process) (clusters : list Cluster)
  : result (list Process * list (option Cluster)) :=
  match clusters with
  | [] => Ok (processes, [])
  | c :: rest =>
      '(processes, r) ← clusterStep processes c;
      '(processes, rs) ← mapClusters processes rest;
      Ok (processes, r :: rs)
  end.

(** [.filter(c => c)]. *)
Definition keptClusters (l : list (option Cluster)) : list Cluster :=
  omap (fun c => c) l.

(** What [main] goes on with after [clusters.map(...).filter(c => c)]: the
    processes pushed and the clusters that remain. *)
Definition materialized (r : list Process * list (option Cluster))
  : list Process * list Cluster := (r.1, keptClusters r.2).

(** The callback of [processes.map] (lines 152-177), after the fetch. *)
Definition processUsageOf (p : Process) (fetched : option Measurements)
  : result ProcessUsage :=
  ms ← defined fetched;
  memoryUsage ← getMemoryUsage ms;
  let memoryUsageGb := (memoryUsage / lit 1000000)%num in
  cpuUsage ← getCpuUsage ms;
  byProvider ← defined (hardwareSpec !! instanceSizeName (p_providerSettings p));
  hardware ← defined (byProvider !! providerName (p_providerSettings p));
  let nCpu := CPU hardware in
  let memoryAvail := memory hardware in
  let providerName := toUpperCase (providerName (p_providerSettings p)) in
  Ok {| u_processId := p_id p;
        u_clusterName := p_cluster p;
        u_providerName := providerName;
        u_instanceSizeName := instanceSizeName (p_providerSettings p);
        u_region := regionName (p_providerSettings p);
        u_memoryUsageGb := memoryUsageGb;
        u_cpuUsage := cpuUsage;
        u_diskSizeGb := p_diskSizeGb p;
        u_nCpu := nCpu;
        u_memoryAvail := memoryAvail;
        u_PUE := p_PUE p;
        u_gCO2ekWh := p_gCO2ekWh p |}.

(** Line 187 with the window length as a parameter. *)
Definition energyFormula (runningTimeHours : num) (p : ProcessUsage) : num :=
  (runningTimeHours
   * (u_nCpu p * lit 12.4 * u_cpuUsage p + u_memoryAvail p * lit 0.3725
      + u_diskSizeGb p * lit 0.001)
   * u_PUE p * lit 0.001 * u_gCO2ekWh p)%num.

(** Line 187: the callback of [processUsage.map]. *)
Definition energy (p : ProcessUsage) : num :=
  energyFormula (runningTimeHours GRANULARITY_PARAMS) p.

(** Line 191. *)
Definition totalCarbon (energies : list num) : result num :=
  reduce_noinit (fun a b => a + b)%num energies.

(** [main], from the clusters of the chosen project to the total. *)
Definition main (clusters : list Cluster) : result num :=
  '(processes, mapped) ← mapClusters [] clusters;
  let clusters := keptClusters mapped in
  processUsage ← mapM (fun p => processUsageOf p (fetchMeasurements (p_id p))) processes;
  let energies := map energy processUsage in
  totalCarbon energies.

End Estimator.

(** ** What the specification calls a match *)

(** A row the lookup for [provider] can read: it has a provider field, and
    a region field too when its provider is the one looked for.  Every row
    with both fields is one, and so is the one-field row [[""]] that a final
    newline of the file leaves, for any provider name but the empty one. *)
Definition readableFor (provider : string) (row : list string) : Prop :=
  exists p, row !! 0%nat = Some p /\
    (toUpperCase p = toUpperCase provider -> exists r, row !! 1%nat = Some r).

(** The row's provider equals [provider] up to case, and its region equals
    [region] up to case and separators. *)
Definition recordMatches (provider region : string) (row : list string) : Prop :=
  exists p r, row !! 0%nat = Some p /\ row !! 1%nat = Some r /\
    toUpperCase p = toUpperCase provider /\ normalizeRegion r = normalizeRegion region.

(** [row] is the first row of [table], in table order, that matches. *)
Definition firstMatch (provider region : string) (table : list (list string))
  (row : list string) : Prop :=
  exists pre post, table = (pre ++ row :: post)%list /\
    recordMatches provider region row /\
    Forall (fun x => ~ recordMatches provider region x) pre.

(** ** Inverses and measures used in the statements *)

(** [c] occurs in [s]. *)
Fixpoint hasChar (c : ascii) (s : string) : bool :=
  match s with
  | EmptyString => false
  | String a s' => Ascii.eqb a c || hasChar c s'
  end.

(** [l.join(sep)]: the inverse of [split]. *)
Fixpoint joinWith (sep : ascii) (l : list string) : string :=
  match l with
  | [] => EmptyString
  | x :: rest =>
      match rest with
      | [] => x
      | _ :: _ => x ++ String sep (joinWith sep rest)
      end
  end.

(** The text of a table: fields joined by commas, rows by newlines. *)
Definition unparseCsv (rows : list (list string)) : string :=
  joinWith "010" (map (joinWith ",") rows).

(** The instance sizes below M10. *)
Definition belowM10 (c : string) : bool :=
  bool_decide (c = "M0") || bool_decide (c = "M2") || bool_decide (c = "M5").

(** ** Sample data for the worked examples *)

Definition digitOf (c : ascii) : option Z :=
  let n := nat_of_ascii c in
  if (48 <=? n)%nat && (n <=? 57)%nat then Some (Z.of_nat (n - 48)) else None.

Fixpoint decimalDigits (s : string) (acc : Z) (scale : positive) (frac : bool)
  : option Q :=
  match s with
  | EmptyString => Some (acc # scale)
  | String c s' =>
      if Ascii.eqb c "." then
        if frac then None else decimalDigits s' acc scale true
      else
        match digitOf c with
        | Some d => decimalDigits s' (10 * acc + d) (if frac then 10 * scale else scale)%positive frac
        | None => None
        end
  end.

(** A stand-in for [parseFloat] in the examples: it reads plain decimals
    ("1.15", "300") as [parseFloat] does and yields NaN on anything else. *)
Definition parseDecimal (s : string) : float :=
  match s with
  | EmptyString => nan
  | _ =>
      match decimalDigits s 0 1 false with
      | Some q => lit q
      | None => nan
      end
  end.

(** Rows in the layout of [cloudProviders_datacenters.csv]: provider, region,
    carbon-intensity key at index 2, PUE at index 6. *)
Definition sampleDatacenters : list (list string) :=
  [ ["aws"; "us-east-1"; "US-VA"; "Ashburn"; "US"; "Virginia"; "1.15"];
    ["gcp"; "europe-west1"; "BE"; "St. Ghislain"; "BE"; "Hainaut"; ""];
    ["azure"; "West Europe"; "ZZ"; "Amsterdam"; "NL"; "Noord-Holland"; "1.18"];
    ["AWS"; "US_EAST_1"; "US-CA"; "duplicate"; "US"; "Virginia"; "1.3"];
    [""] ].

(** Closes [Forall (readableFor provider) table] on a concrete table. *)
Ltac readable_rows :=
  repeat constructor;
  (eexists; split; [reflexivity|];
   intros E; first [discriminate E | eexists; reflexivity]).

(** Rows in the layout of [CI_aggregated.csv]: key at index 0, gCO2/kWh at
    index 4. *)
Definition sampleCI : list (list string) :=
  [ ["US-VA"; "Virginia"; "US"; "North America"; "308.21"];
    ["BE"; "Belgium"; "BE"; "Europe"; "161.89"] ].

Definition sampleHardware : gmap string (gmap string (@Hardware float)) :=
  {[ "M10" := {[ "AWS" := {| CPU := 2%float; memory := 2%float |};
                 "GCP" := {| CPU := 1%float; memory := 1.7%float |} ]};
     "M30" := {[ "AWS" := {| CPU := 2%float; memory := 8%float |} ]} ]}.

(** A series of one sample. *)
Definition sampleSeries (v : float) : list (@DataPoint float) :=
  [ {| timestamp := "2023-01-01T00:00:00Z"; value := v |} ].

(** A measurement set with all nine series: the CPU user series holds
    [user] three times, the other CPU series hold 0. *)
Definition sampleMeasurements (user : float) : @Measurements float :=
  {| measurements :=
       {| name := "SYSTEM_MEMORY_AVAILABLE"; dataPoints := sampleSeries 3500000%float |}
       :: {| name := "SYSTEM_NORMALIZED_CPU_USER";
             dataPoints := (sampleSeries user ++ sampleSeries user ++ sampleSeries user)%list |}
       :: map (fun n => {| name := n; dataPoints := sampleSeries 0%float |})
              (tail METRICS_CPU) |}.

(** The same with other memory samples. *)
Definition sampleMeasurementsLowMemory (user : float) : @Measurements float :=
  {| measurements :=
       {| name := "SYSTEM_MEMORY_AVAILABLE";
          dataPoints := (sampleSeries 120000%float ++ sampleSeries 80000%float)%list |}
       :: tail (measurements (sampleMeasurements user)) |}.

(** All nine series present, the CPU iowait series empty. *)
Definition sampleMeasurementsEmptyIowait : @Measurements float :=
  {| measurements :=
       {| name := "SYSTEM_MEMORY_AVAILABLE"; dataPoints := sampleSeries 3500000%float |}
       :: map (fun n => {| name := n;
                           dataPoints :=
                             if bool_decide (n = "SYSTEM_NORMALIZED_CPU_IOWAIT")
                             then [] else sampleSeries 0.125%float |})
              METRICS_CPU |}.

(** The same without the CPU user series. *)
Definition sampleMeasurementsNoUser : @Measurements float :=
  {| measurements :=
       {| name := "SYSTEM_MEMORY_AVAILABLE"; dataPoints := sampleSeries 3500000%float |}
       :: map (fun n => {| name := n; dataPoints := sampleSeries 0%float |})
              (tail METRICS_CPU) |}.

Definition sampleProcess : @Process float :=
  {| p_id := "h0.example.net:27017";
     p_cluster := "Cluster0";
     p_providerSettings :=
       {| instanceSizeName := "M30"; providerName := "AWS"; regionName := "us-east-1" |};
     p_diskSizeGb := 10%float;
     p_PUE := 1.2%float;
     p_gCO2ekWh := 475%float |}.

Definition sampleCluster (size provider region : string) : @Cluster float :=
  {| c_name := "Cluster0";
     c_providerSettings :=
       {| instanceSizeName := size; providerName := provider; regionName := region |};
     c_mongoURI := "mongodb://h0.example.net:27017,h1.example.net:27017";
     c_diskSizeGB := 10%float |}.

(** A datacenter table with short rows: the first has no PUE field, the
    second has a provider field only. *)
Definition shortDatacenters : list (list string) :=
  [ ["azure"; "West Europe"; "NL"]; ["gcp"] ].

(** A carbon-intensity table whose row has no value field. *)
Definition shortCI : list (list string) := [ ["NL"; "Netherlands"] ].

(** A measurement set whose CPU user and kernel series vary: the user
    samples are 0.25, 0.5 and 0.75, the kernel samples 0.125 and 0.375. *)
Definition sampleMeasurementsVarying : @Measurements float :=
  {| measurements :=
       {| name := "SYSTEM_MEMORY_AVAILABLE"; dataPoints := sampleSeries 3500000%float |}
       :: {| name := "SYSTEM_NORMALIZED_CPU_USER";
             dataPoints := (sampleSeries 0.25%float ++ sampleSeries 0.5%float
                            ++ sampleSeries 0.75%float)%list |}
       :: {| name := "SYSTEM_NORMALIZED_CPU_KERNEL";
             dataPoints := (sampleSeries 0.125%float ++ sampleSeries 0.375%float)%list |}
       :: map (fun n => {| name := n; dataPoints := sampleSeries 0%float |})
              (tail (tail METRICS_CPU)) |}.

(** The usage record of [sampleProcess] at CPU utilization 1. *)
Definition sampleUsage : @ProcessUsage float :=
  {| u_processId := "h0.example.net:27017";
     u_clusterName := "Cluster0";
     u_providerName := "AWS";
     u_instanceSizeName := "M30";
     u_region := "us-east-1";
     u_memoryUsageGb := 3.5%float;
     u_cpuUsage := 1%float;
     u_diskSizeGb := 10%float;
     u_nCpu := 2%float;
     u_memoryAvail := 8%float;
     u_PUE := 1.2%float;
     u_gCO2ekWh := 475%float |}.

(** ** Strings: case and separators *)

Lemma toUpperCaseChar_idem (c : ascii) :
  toUpperCaseChar (toUpperCaseChar c) = toUpperCaseChar c.
Proof. destruct c as [[] [] [] [] [] [] [] []]; reflexivity. Qed.

Lemma isSeparator_toUpperCaseChar (c : ascii) :
  isSeparator (toUpperCaseChar c) = isSeparator c.
Proof. destruct c as [[] [] [] [] [] [] [] []]; reflexivity. Qed.

Lemma toUpperCase_idem (s : string) : toUpperCase (toUpperCase s) = toUpperCase s.
Proof.
  induction s as [|c s IH]; simpl; [reflexivity|].
  now rewrite toUpperCaseChar_idem, IH.
Qed.

Lemma stripSeparators_idem (s : string) :
  stripSeparators (stripSeparators s) = stripSeparators s.
Proof.
  induction s as [|c s IH]; simpl; [reflexivity|].
  destruct (isSeparator c) eqn:E; simpl; [assumption|].
  now rewrite E, IH.
Qed.

Lemma toUpperCase_stripSeparators (s : string) :
  toUpperCase (stripSeparators s) = stripSeparators (toUpperCase s).
Proof.
  induction s as [|c s IH]; simpl; [reflexivity|].
  rewrite isSeparator_toUpperCaseChar.
  destruct (isSeparator c); simpl; now rewrite IH.
Qed.

Lemma normalizeRegion_idem (s : string) :
  normalizeRegion (normalizeRegion s) = normalizeRegion s.
Proof.
  unfold normalizeRegion.
  now rewrite toUpperCase_stripSeparators, toUpperCase_idem, stripSeparators_idem.
Qed.

Lemma split_not_nil (sep : ascii) (s : string) : split sep s <> [].
Proof.
  destruct s as [|c s]; simpl; [discriminate|].
  destruct (Ascii.eqb c sep); [discriminate|].
  destruct (split sep s); discriminate.
Qed.

(** Every row of a parsed file has its first field; a final newline leaves
    a last row with that field only. *)
Lemma parseCsv_first_field (content : string) (row : list string) :
  In row (parseCsv content) -> exists p, row !! 0%nat = Some p.
Proof.
  unfold parseCsv. rewrite in_map_iff. intros (line & <- & _).
  pose proof (split_not_nil "," line) as Hne.
  destruct (split "," line) as [|p fields]; [contradiction|]. now exists p.
Qed.

Example parseCsv_final_newline :
  parseCsv ("aws,us-east-1,US-VA" ++ String "010" "gcp,europe-west1,BE" ++ String "010" "")
  = [ ["aws"; "us-east-1"; "US-VA"]; ["gcp"; "europe-west1"; "BE"]; [""] ].
Proof. reflexivity. Qed.

(** ** The datacenter lookup *)

Lemma two_fields_readable (provider : string) (row : list string) :
  (2 <= length row)%nat -> readableFor provider row.
Proof.
  destruct row as [|p [|r row]]; simpl; try lia.
  intros _. exists p. split; [reflexivity|]. intros _. now exists r.
Qed.

(** On a readable row the callback of [find] does not throw and decides
    [recordMatches]. *)
Lemma matchesDatacenter_spec (provider region : string) (row : list string) :
  readableFor provider row ->
  exists b, matchesDatacenter (toUpperCase provider) (toUpperCase region) row = Ok b /\
    (b = true <-> recordMatches provider region row).
Proof.
  intros (p & Hp0 & Hreg). unfold matchesDatacenter. rewrite Hp0. simpl.
  destruct (bool_decide (toUpperCase p = toUpperCase provider)) eqn:Ep.
  - apply bool_decide_eq_true in Ep. destruct (Hreg Ep) as (r & Hr1). rewrite Hr1.
    simpl. eexists; split; [reflexivity|].
    rewrite bool_decide_eq_true. fold (normalizeRegion r).
    change (stripSeparators (toUpperCase region)) with (normalizeRegion region).
    split.
    + intros Hr. exists p, r. auto.
    + intros (p' & r' & Hp & Hr & _ & Hn). congruence.
  - exists false; split; [reflexivity|].
    apply bool_decide_eq_false in Ep.
    split; [discriminate|].
    intros (p' & r' & Hp & _ & Hu & _). congruence.
Qed.

(** The lookup only sees the region through its normal form. *)
Lemma matchesDatacenter_normal (provider r1 r2 : string) (row : list string) :
  normalizeRegion r1 = normalizeRegion r2 ->
  matchesDatacenter provider (toUpperCase r1) row
  = matchesDatacenter provider (toUpperCase r2) row.
Proof.
  intros Hn. unfold matchesDatacenter.
  fold (normalizeRegion r1). fold (normalizeRegion r2). now rewrite Hn.
Qed.

Lemma findCloudProvider_normal (table : list (list string)) (provider r1 r2 : string) :
  normalizeRegion r1 = normalizeRegion r2 ->
  findCloudProvider table provider (toUpperCase r1)
  = findCloudProvider table provider (toUpperCase r2).
Proof.
  intros Hn. unfold findCloudProvider.
  induction table as [|row table IH]; simpl; [reflexivity|].
  now rewrite (matchesDatacenter_normal provider r1 r2 row Hn), IH.
Qed.

Lemma findCloudProvider_found (table : list (list string)) (provider region : string)
  (row : list string) :
  Forall (readableFor provider) table ->
  findCloudProvider table (toUpperCase provider) (toUpperCase region) = Ok (Some row)
  <-> firstMatch provider region table row.
Proof.
  unfold findCloudProvider. intros Hwf.
  induction Hwf as [|x table Hx Hwf IH]; simpl.
  - split; [discriminate|]. intros (pre & post & E & _). now destruct pre.
  - destruct (matchesDatacenter_spec provider region x Hx) as (b & -> & Hb). simpl.
    destruct b.
    + split.
      * intros [= <-]. exists [], table. split; [reflexivity|]. split; [now apply Hb | constructor].
      * intros (pre & post & E & Hm & Hpre). destruct pre as [|y pre]; simpl in E.
        -- now injection E as ->.
        -- injection E as <- _. apply Forall_cons in Hpre as [Hy _].
           exfalso. apply Hy. now apply Hb.
    + rewrite IH. split.
      * intros (pre & post & -> & Hm & Hpre). exists (x :: pre), post.
        split; [reflexivity|]. split; [assumption|].
        constructor; [|assumption]. intros Hm'. apply Hb in Hm'. discriminate.
      * intros (pre & post & E & Hm & Hpre). destruct pre as [|y pre]; simpl in E.
        -- injection E as <- _. apply Hb in Hm. discriminate.
        -- injection E as _ ->. apply Forall_cons in Hpre as [_ Hpre].
           now exists pre, post.
Qed.

Lemma findCloudProvider_none (table : list (list string)) (provider region : string) :
  Forall (readableFor provider) table ->
  findCloudProvider table (toUpperCase provider) (toUpperCase region) = Ok None
  <-> Forall (fun x => ~ recordMatches provider region x) table.
Proof.
  unfold findCloudProvider. intros Hwf.
  induction Hwf as [|x table Hx Hwf IH]; simpl.
  - split; [constructor | reflexivity].
  - destruct (matchesDatacenter_spec provider region x Hx) as (b & -> & Hb). simpl.
    destruct b.
    + split; [discriminate|]. intros H. apply Forall_cons in H as [H _].
      exfalso. apply H. now apply Hb.
    + rewrite IH. split.
      * intros H. constructor; [|assumption]. intros Hm. apply Hb in Hm. discriminate.
      * intros H. now apply Forall_cons in H as [_ H].
Qed.

(** C4. Region normalization (upper case, then '_', '-' and ' ' removed) is
    idempotent, and the datacenter lookup depends on the region only through
    its normal form: "us-east-1", "US_EAST_1" and "useast1", and any two
    spellings with one normal form, find the same row of any table; on a
    table of readable rows that row is the first one, in table order, whose
    provider matches up to case and whose normalized region matches, and
    the lookup finds nothing exactly when no row matches. *)
Theorem region_normalization_lookup (table : list (list string))
  (provider r1 r2 : string) :
  normalizeRegion r1 = normalizeRegion r2 ->
  normalizeRegion (normalizeRegion r1) = normalizeRegion r1
  /\ (normalizeRegion "us-east-1" = "USEAST1"
      /\ normalizeRegion "US_EAST_1" = "USEAST1"
      /\ normalizeRegion "useast1" = "USEAST1")
  /\ findCloudProvider table (toUpperCase provider) (toUpperCase r1)
     = findCloudProvider table (toUpperCase provider) (toUpperCase r2)
  /\ (Forall (readableFor provider) table ->
      (forall row,
          findCloudProvider table (toUpperCase provider) (toUpperCase r1) = Ok (Some row)
          <-> firstMatch provider r1 table row)
      /\ (forall row,
            findCloudProvider table (toUpperCase provider) (toUpperCase r2) = Ok (Some row)
            <-> firstMatch provider r1 table row)
      /\ (findCloudProvider table (toUpperCase provider) (toUpperCase r1) = Ok None
          <-> Forall (fun x => ~ recordMatches provider r1 x) table)).
Proof.
  intros Hn.
  split; [apply normalizeRegion_idem|].
  split; [repeat split; reflexivity|].
  split; [now apply findCloudProvider_normal|].
  intros Hwf.
  split; [intros row; now apply findCloudProvider_found|].
  split; [|now apply findCloudProvider_none].
  intros row. rewrite <- (findCloudProvider_normal table _ r1 r2 Hn).
  now apply findCloudProvider_found.
Qed.

Lemma region_normalization_lookup_witness :
  findCloudProvider sampleDatacenters "AWS" "US-EAST-1"
  = findCloudProvider sampleDatacenters "AWS" "USEAST1"
  /\ findCloudProvider sampleDatacenters "AWS" "US_EAST_1"
     = Ok (Some ["aws"; "us-east-1"; "US-VA"; "Ashburn"; "US"; "Virginia"; "1.15"])
  /\ firstMatch "Aws" "us-east-1" sampleDatacenters
       ["aws"; "us-east-1"; "US-VA"; "Ashburn"; "US"; "Virginia"; "1.15"].
Proof.
  assert (Hwf : Forall (readableFor "Aws") sampleDatacenters) by readable_rows.
  destruct (region_normalization_lookup sampleDatacenters "Aws" "us-east-1" "useast1"
              eq_refl) as (_ & _ & Heq & Hfirst).
  destruct (Hfirst Hwf) as (Hfound & _ & _).
  split; [exact Heq|]. split; [reflexivity|].
  apply Hfound. reflexivity.
Defined.

(** ** Resolution of PUE and carbon intensity *)

Example float_literals :
  (lit 1.67 : float) = 1.67%float /\ (lit 1.11 : float) = 1.11%float
  /\ (lit 1.125 : float) = 1.125%float /\ (lit 1.2 : float) = 1.2%float
  /\ (lit 475 : float) = 475%float /\ (lit 24 : float) = 24%float
  /\ (lit 12.4 : float) = 12.4%float /\ (lit 0.3725 : float) = 0.3725%float
  /\ (lit 0.001 : float) = 0.001%float /\ (lit 1000000 : float) = 1000000%float
  /\ (lit 0 : float) = 0%float.
Proof. repeat split; reflexivity. Qed.

Section Resolution.
Context {num : Type} `{!Number num}.
Variable parseFloat : string -> num.
Variable cloudProviders ciAggregated : list (list string).

Lemma defaultPUE_cases (provider : string) :
  (provider = "GCP" -> defaultPUE provider = lit 1.11)
  /\ (provider = "AZURE" -> defaultPUE provider = lit 1.125)
  /\ (provider = "AWS" -> defaultPUE provider = lit 1.2)
  /\ (provider <> "GCP" -> provider <> "AZURE" -> provider <> "AWS" ->
      defaultPUE provider = lit 1.67).
Proof.
  unfold defaultPUE. repeat split.
  - intros ->. reflexivity.
  - intros ->. reflexivity.
  - intros ->. reflexivity.
  - intros H1 H2 H3.
    rewrite !bool_decide_eq_false_2 by assumption. reflexivity.
Qed.

Lemma clusterStep_resolved (processes : list Process) (c : Cluster) (PUE gCO2ekWh : num) :
  instanceSizeName (c_providerSettings c) <> "M0" ->
  instanceSizeName (c_providerSettings c) <> "M2" ->
  instanceSizeName (c_providerSettings c) <> "M5" ->
  resolveFactors parseFloat cloudProviders ciAggregated (c_providerSettings c)
  = Ok (PUE, gCO2ekWh) ->
  clusterStep parseFloat cloudProviders ciAggregated processes c
  = Ok ((processes ++ clusterProcesses c PUE gCO2ekWh)%list, Some c).
Proof.
  intros H0 H2 H5 Hres. unfold clusterStep.
  rewrite !bool_decide_eq_false_2 by assumption. simpl.
  rewrite Hres. reflexivity.
Qed.

Lemma clusterProcesses_factors (c : Cluster) (PUE gCO2ekWh : num) (p : Process) :
  In p (clusterProcesses c PUE gCO2ekWh) ->
  p_PUE p = PUE /\ p_gCO2ekWh p = gCO2ekWh /\ p_diskSizeGb p = c_diskSizeGB c
  /\ p_providerSettings p = c_providerSettings c.
Proof.
  unfold clusterProcesses. rewrite in_map_iff. intros (h & <- & _). simpl. auto.
Qed.

Lemma clusterProcesses_not_nil (c : Cluster) (PUE gCO2ekWh : num) :
  clusterProcesses c PUE gCO2ekWh <> [].
Proof.
  unfold clusterProcesses. intros H. apply map_eq_nil in H.
  now apply split_not_nil in H.
Qed.
End Resolution.

(** C2. When no datacenter row matches the provider (up to case) and the
    region (up to case and separators), the carbon intensity is 475 and the
    PUE is the provider default: 1.11 for GCP, 1.125 for AZURE, 1.2 for AWS
    (compared in upper case), 1.67 for any other provider name; these are
    the factors of every process of such a cluster.  The rows are readable
    rows: each has a provider field, and a region field when its provider is
    the one looked for. *)
Theorem no_match_defaults {num : Type} `{!Number num} (parseFloat : string -> num)
  (cloudProviders ciAggregated : list (list string)) (settings : ProviderSettings) :
  Forall (readableFor (providerName settings)) cloudProviders ->
  Forall (fun row => ~ recordMatches (providerName settings) (regionName settings) row)
    cloudProviders ->
  exists PUE : num,
    resolveFactors parseFloat cloudProviders ciAggregated settings = Ok (PUE, lit 475)
    /\ (toUpperCase (providerName settings) = "GCP" -> PUE = lit 1.11)
    /\ (toUpperCase (providerName settings) = "AZURE" -> PUE = lit 1.125)
    /\ (toUpperCase (providerName settings) = "AWS" -> PUE = lit 1.2)
    /\ (toUpperCase (providerName settings) <> "GCP" ->
        toUpperCase (providerName settings) <> "AZURE" ->
        toUpperCase (providerName settings) <> "AWS" -> PUE = lit 1.67)
    /\ (forall processes c,
          c_providerSettings c = settings ->
          instanceSizeName settings <> "M0" -> instanceSizeName settings <> "M2" ->
          instanceSizeName settings <> "M5" ->
          clusterStep parseFloat cloudProviders ciAggregated processes c
          = Ok ((processes ++ clusterProcesses c PUE (lit 475))%list, Some c)).
Proof.
  intros Hwf Hnone.
  apply (findCloudProvider_none _ _ _ Hwf) in Hnone.
  assert (Hres : resolveFactors parseFloat cloudProviders ciAggregated settings
                 = Ok (defaultPUE (toUpperCase (providerName settings)), lit 475)).
  { unfold resolveFactors. rewrite Hnone. reflexivity. }
  exists (defaultPUE (toUpperCase (providerName settings))).
  destruct (defaultPUE_cases (num := num) (toUpperCase (providerName settings)))
    as (Hg & Hz & Ha & Ho).
  repeat split; try assumption.
  intros processes c <- H0 H2 H5. now apply clusterStep_resolved.
Qed.

Lemma no_match_defaults_witness :
  resolveFactors parseDecimal sampleDatacenters sampleCI
    {| instanceSizeName := "M30"; providerName := "aws"; regionName := "eu-west-1" |}
  = Ok (1.2%float, 475%float).
Proof.
  assert (Hwf : Forall (readableFor "aws") sampleDatacenters) by readable_rows.
  assert (Hnone : Forall (fun row => ~ recordMatches "aws" "eu-west-1" row) sampleDatacenters).
  { repeat constructor; intros (p & r & Hp & Hr & Hu & Hn);
      simpl in Hp, Hr; try discriminate Hr; injection Hp as <-; injection Hr as <-;
      vm_compute in Hu, Hn; congruence. }
  destruct (no_match_defaults parseDecimal sampleDatacenters sampleCI
              {| instanceSizeName := "M30"; providerName := "aws"; regionName := "eu-west-1" |}
              Hwf Hnone) as (PUE & Hres & _ & _ & Haws & _).
  rewrite Hres, (Haws eq_refl). reflexivity.
Defined.

(** A row with a provider field only makes the lookup throw when that
    provider is the one looked for: [c[1]] is [undefined]. *)
Example short_row_throws :
  findCloudProvider [["AWS"]] "AWS" "US-EAST-1" = Throw TypeError
  /\ findCloudProvider [["AWS"]] "GCP" "US-EAST-1" = Ok None.
Proof. split; reflexivity. Qed.

Lemma find_js_none {A : Type} (f : A -> bool) (l : list A) :
  (forall x, In x l -> f x = false) -> find_js f l = None.
Proof.
  induction l as [|x l IH]; simpl; intros H; [reflexivity|].
  rewrite (H x) by now left. apply IH. intros y Hy. apply H. now right.
Qed.



(** ** Clusters below M10 *)

Section Materialization.
Context {num : Type} `{!Number num}.
Variable parseFloat : string -> num.
Variable cloudProviders ciAggregated : list (list string).

Lemma mapClusters_skip (processes : list Process) (c : Cluster) (rest : list Cluster) :
  clusterStep parseFloat cloudProviders ciAggregated processes c = Ok (processes, None) ->
  materialized <$> mapClusters parseFloat cloudProviders ciAggregated processes (c :: rest)
  = materialized <$> mapClusters parseFloat cloudProviders ciAggregated processes rest.
Proof.
  intros Hstep. simpl. rewrite Hstep. simpl.
  destruct (mapClusters _ _ _ processes rest) as [[ps rs]|e]; reflexivity.
Qed.

Lemma mapClusters_skip_app (processes : list Process) (c : Cluster)
  (before after : list Cluster) :
  (forall ps, clusterStep parseFloat cloudProviders ciAggregated ps c = Ok (ps, None)) ->
  materialized
    <$> mapClusters parseFloat cloudProviders ciAggregated processes
          (before ++ c :: after)%list
  = materialized
      <$> mapClusters parseFloat cloudProviders ciAggregated processes
            (before ++ after)%list.
Proof.
  intros Hstep. revert processes.
  induction before as [|b before IH]; intros processes.
  - apply mapClusters_skip, Hstep.
  - simpl.
    destruct (clusterStep _ _ _ processes b) as [[ps r]|e]; [|reflexivity]. simpl.
    specialize (IH ps). simpl in IH.
    destruct (mapClusters _ _ _ ps (before ++ c :: after)%list) as [[ps1 rs1]|e1],
             (mapClusters _ _ _ ps (before ++ after)%list) as [[ps2 rs2]|e2];
      simpl in *; try discriminate; [|congruence].
    injection IH as -> Hk. unfold materialized. simpl. unfold keptClusters in *. simpl.
    now rewrite Hk.
Qed.

Lemma mapClusters_all_small (processes : list Process) (clusters : list Cluster) :
  (forall c, In c clusters ->
             In (instanceSizeName (c_providerSettings c)) ["M0"; "M2"; "M5"]) ->
  mapClusters parseFloat cloudProviders ciAggregated processes clusters
  = Ok (processes, map (fun _ => None) clusters).
Proof.
  induction clusters as [|c clusters IH]; intros Hsmall; [reflexivity|].
  assert (Hc : In (instanceSizeName (c_providerSettings c)) ["M0"; "M2"; "M5"])
    by (apply Hsmall; now left).
  assert (Hstep : clusterStep parseFloat cloudProviders ciAggregated processes c
                  = Ok (processes, None)).
  { unfold clusterStep. destruct Hc as [<-|[<-|[<-|[]]]]; reflexivity. }
  simpl. rewrite Hstep. simpl.
  rewrite IH by (intros c' Hc'; apply Hsmall; now right).
  reflexivity.
Qed.
End Materialization.

(** C7. A cluster whose instance size is exactly "M0", "M2" or "M5"
    materializes no process, whatever its provider, region, disk size and
    connection string: its step leaves [processes] as it is and returns
    [undefined], and the fleet with the cluster yields the processes, the
    kept clusters and the total of the fleet without it. *)
Theorem small_tiers_excluded {num : Type} `{!Number num} (parseFloat : string -> num)
  (cloudProviders ciAggregated : list (list string))
  (hardwareSpec : gmap string (gmap string Hardware))
  (fetchMeasurements : string -> option Measurements)
  (processes : list Process) (c : Cluster) (before after : list Cluster) :
  In (instanceSizeName (c_providerSettings c)) ["M0"; "M2"; "M5"] ->
  clusterStep parseFloat cloudProviders ciAggregated processes c = Ok (processes, None)
  /\ materialized
       <$> mapClusters parseFloat cloudProviders ciAggregated processes
             (before ++ c :: after)%list
     = materialized
         <$> mapClusters parseFloat cloudProviders ciAggregated processes
               (before ++ after)%list
  /\ main parseFloat cloudProviders ciAggregated hardwareSpec fetchMeasurements
       (before ++ c :: after)%list
     = main parseFloat cloudProviders ciAggregated hardwareSpec fetchMeasurements
         (before ++ after)%list.
Proof.
  intros Hin.
  assert (Hstep : forall ps,
             clusterStep parseFloat cloudProviders ciAggregated ps c = Ok (ps, None)).
  { intros ps. unfold clusterStep.
    destruct Hin as [<-|[<-|[<-|[]]]]; reflexivity. }
  split; [apply Hstep|].
  assert (Hmat : forall ps,
             materialized
               <$> mapClusters parseFloat cloudProviders ciAggregated ps
                     (before ++ c :: after)%list
             = materialized
                 <$> mapClusters parseFloat cloudProviders ciAggregated ps
                       (before ++ after)%list).
  { intros ps. now apply mapClusters_skip_app. }
  split; [apply Hmat|].
  unfold main. specialize (Hmat []).
  destruct (mapClusters _ _ _ [] (before ++ c :: after)%list) as [[ps1 rs1]|e1],
           (mapClusters _ _ _ [] (before ++ after)%list) as [[ps2 rs2]|e2];
    simpl in *; try discriminate; [|congruence].
  injection Hmat as -> _. reflexivity.
Qed.

Lemma small_tiers_excluded_witness :
  clusterStep parseDecimal sampleDatacenters sampleCI [] (sampleCluster "M5" "AWS" "us-east-1")
  = Ok ([], None).
Proof.
  apply (small_tiers_excluded parseDecimal sampleDatacenters sampleCI sampleHardware
           (fun _ => None) [] (sampleCluster "M5" "AWS" "us-east-1") [] []).
  simpl. auto.
Defined.

(** ** Aggregation of the samples *)

Section Aggregation.
Context {num : Type} `{!Number num}.

Lemma getMeasurement_absent (ms : @Measurements num) (metric : string) :
  (forall m, In m (measurements ms) -> name m <> metric) ->
  getMeasurement ms metric = Throw TypeError.
Proof.
  intros Habs. unfold getMeasurement. rewrite find_js_none; [reflexivity|].
  intros m Hm. apply bool_decide_eq_false_2. now apply Habs.
Qed.

Lemma cpuLoop_missing (ms : @Measurements num) (metrics : list string) (metric : string)
  (totalUsage : num) :
  In metric metrics ->
  getMeasurement ms metric = Throw TypeError ->
  cpuLoop ms metrics totalUsage = Throw TypeError.
Proof.
  intros Hin Hthrow. revert totalUsage.
  induction metrics as [|m metrics IH]; intros totalUsage; [destruct Hin|].
  simpl. destruct Hin as [->|Hin].
  - rewrite Hthrow. reflexivity.
  - destruct (getMeasurement ms m) as [dp|[]]; simpl; [|reflexivity].
    now apply IH.
Qed.

Lemma cpuLoop_present (ms : @Measurements num) (series : string -> list (@DataPoint num))
  (metrics : list string) (totalUsage : num) :
  (forall metric, In metric metrics -> getMeasurement ms metric = Ok (series metric)) ->
  cpuLoop ms metrics totalUsage
  = Ok (fold_left (fun total metric => total + getDatapointsAvg (series metric))%num
          metrics totalUsage).
Proof.
  revert totalUsage.
  induction metrics as [|m metrics IH]; intros totalUsage Hall; [reflexivity|].
  simpl. rewrite (Hall m) by now left. simpl.
  apply IH. intros metric Hin. apply Hall. now right.
Qed.
End Aggregation.

(** C5. When the measurement set has a series for each of the eight CPU
    sub-metrics, the normalized CPU utilization is the sum of the eight
    averages (added to 0 in the order user, kernel, nice, iowait, irq,
    softirq, guest, steal), the average of a series being the sum of its
    sample values, added to 0 from the first sample on, divided by the
    number of samples; when one of the eight names is absent from the
    measurement set, the computation throws instead of counting it as 0. *)
Theorem cpu_usage_sum_or_error {num : Type} `{!Number num} (ms : @Measurements num) :
  let mean := fun series : list (@DataPoint num) =>
                (fold_left nadd (map value series) (lit 0)
                 / ofLength (length series))%num in
  (forall series : string -> list DataPoint,
      (forall metric, In metric METRICS_CPU ->
                      getMeasurement ms metric = Ok (series metric)) ->
      getCpuUsage ms
      = Ok (lit 0
            + mean (series "SYSTEM_NORMALIZED_CPU_USER")
            + mean (series "SYSTEM_NORMALIZED_CPU_KERNEL")
            + mean (series "SYSTEM_NORMALIZED_CPU_NICE")
            + mean (series "SYSTEM_NORMALIZED_CPU_IOWAIT")
            + mean (series "SYSTEM_NORMALIZED_CPU_IRQ")
            + mean (series "SYSTEM_NORMALIZED_CPU_SOFTIRQ")
            + mean (series "SYSTEM_NORMALIZED_CPU_GUEST")
            + mean (series "SYSTEM_NORMALIZED_CPU_STEAL"))%num)
  /\ (forall metric,
        In metric METRICS_CPU ->
        (forall m, In m (measurements ms) -> name m <> metric) ->
        getCpuUsage ms = Throw TypeError).
Proof.
  intros mean. split.
  - intros series Hall. unfold getCpuUsage.
    rewrite (cpuLoop_present ms series) by assumption. reflexivity.
  - intros metric Hin Habs. unfold getCpuUsage.
    apply (cpuLoop_missing ms METRICS_CPU metric); [assumption|].
    now apply getMeasurement_absent.
Qed.

Lemma cpu_usage_sum_or_error_witness :
  getCpuUsage sampleMeasurementsVarying = Ok 0.75%float
  /\ getCpuUsage sampleMeasurementsNoUser = Throw TypeError.
Proof.
  split.
  - rewrite (proj1 (cpu_usage_sum_or_error sampleMeasurementsVarying)
               (fun metric =>
                  if bool_decide (metric = "SYSTEM_NORMALIZED_CPU_USER")
                  then (sampleSeries 0.25%float ++ sampleSeries 0.5%float
                        ++ sampleSeries 0.75%float)%list
                  else if bool_decide (metric = "SYSTEM_NORMALIZED_CPU_KERNEL")
                       then (sampleSeries 0.125%float ++ sampleSeries 0.375%float)%list
                       else sampleSeries 0%float)).
    + vm_compute. reflexivity.
    + intros metric Hin. simpl in Hin.
      repeat (destruct Hin as [<-|Hin]; [reflexivity|]). destruct Hin.
  - apply (proj2 (cpu_usage_sum_or_error sampleMeasurementsNoUser)
             "SYSTEM_NORMALIZED_CPU_USER").
    + simpl. auto.
    + intros m Hm. simpl in Hm.
      repeat (destruct Hm as [<-|Hm]; [discriminate|]). destruct Hm.
Defined.

(** ** The fleet total *)

Lemma mapM_Forall2 {A B : Type} (f : A -> result B) (l : list A) (r : list B) :
  Forall2 (fun a b => f a = Ok b) l r -> mapM f l = Ok r.
Proof.
  induction 1 as [|a b l r Hab Hrest IH]; [reflexivity|].
  simpl. rewrite Hab. simpl. rewrite IH. reflexivity.
Qed.

(** C6. The fleet total is the sum of the per-process energies, added from
    left to right starting with the first: the total of [main] is that sum
    over the energies of all the materialized processes, in their order; on
    the empty list the reduction throws instead of returning zero, and so
    does [main] on a fleet that materializes no process (no cluster, or
    clusters below M10 only). *)
Theorem total_carbon_sum_or_error {num : Type} `{!Number num}
  (parseFloat : string -> num) (cloudProviders ciAggregated : list (list string))
  (hardwareSpec : gmap string (gmap string Hardware))
  (fetchMeasurements : string -> option Measurements) (clusters : list Cluster) :
  totalCarbon (@nil num) = Throw TypeError
  /\ (forall (e : num) (es : list num), totalCarbon (e :: es) = Ok (fold_left nadd es e))
  /\ (forall a b c : num, totalCarbon [a; b; c] = Ok (a + b + c)%num)
  /\ main parseFloat cloudProviders ciAggregated hardwareSpec fetchMeasurements []
     = Throw TypeError
  /\ ((forall c, In c clusters ->
                 In (instanceSizeName (c_providerSettings c)) ["M0"; "M2"; "M5"]) ->
      main parseFloat cloudProviders ciAggregated hardwareSpec fetchMeasurements clusters
      = Throw TypeError)
  /\ (forall (processes : list Process) (mapped : list (option Cluster))
             (usages : list ProcessUsage),
        mapClusters parseFloat cloudProviders ciAggregated [] clusters
        = Ok (processes, mapped) ->
        Forall2 (fun p u => processUsageOf hardwareSpec p (fetchMeasurements (p_id p)) = Ok u)
          processes usages ->
        main parseFloat cloudProviders ciAggregated hardwareSpec fetchMeasurements clusters
        = match map energy usages with
          | [] => Throw TypeError
          | e :: es => Ok (fold_left nadd es e)
          end).
Proof.
  split; [reflexivity|]. split; [reflexivity|]. split; [reflexivity|].
  split; [reflexivity|]. split.
  - intros Hsmall. unfold main.
    rewrite (mapClusters_all_small parseFloat cloudProviders ciAggregated [] clusters Hsmall).
    reflexivity.
  - intros processes mapped usages Hmap Husages. unfold main.
    rewrite Hmap. simpl.
    rewrite (mapM_Forall2 _ processes usages Husages). simpl.
    destruct (map energy usages); reflexivity.
Qed.

Lemma total_carbon_sum_or_error_witness :
  main parseDecimal sampleDatacenters sampleCI sampleHardware
    (fun _ => Some (sampleMeasurements 1%float))
    [sampleCluster "M0" "AWS" "us-east-1"; sampleCluster "M5" "GCP" "europe-west1"]
  = Throw TypeError
  /\ main parseDecimal [] sampleCI sampleHardware
       (fun id => if bool_decide (id = "h0.example.net:27017")
                  then Some (sampleMeasurements 1%float)
                  else Some (sampleMeasurements 0.5%float))
       [sampleCluster "M30" "AWS" "us-east-1"; sampleCluster "M2" "AWS" "us-east-1"]
     = Ok (380.16719999999998 + 210.5352)%float.
Proof.
  split.
  - apply (total_carbon_sum_or_error parseDecimal sampleDatacenters sampleCI sampleHardware
             (fun _ => Some (sampleMeasurements 1%float))
             [sampleCluster "M0" "AWS" "us-east-1"; sampleCluster "M5" "GCP" "europe-west1"]).
    intros c [<-|[<-|[]]]; simpl; auto.
  - destruct (total_carbon_sum_or_error parseDecimal [] sampleCI sampleHardware
                (fun id => if bool_decide (id = "h0.example.net:27017")
                           then Some (sampleMeasurements 1%float)
                           else Some (sampleMeasurements 0.5%float))
                [sampleCluster "M30" "AWS" "us-east-1"; sampleCluster "M2" "AWS" "us-east-1"])
      as (_ & _ & _ & _ & _ & Hsum).
    erewrite Hsum; cycle 1.
    + reflexivity.
    + repeat (econstructor; [reflexivity|]). constructor.
    + vm_compute. reflexivity.
Defined.

(** ** The energy model *)

(** C1. The estimate of a process is
    runningTimeHours * (nCpu * 12.4 * cpuUsage + memoryAvail * 0.3725
    + diskSizeGb * 0.001) * PUE * 0.001 * gCO2ekWh, with runningTimeHours
    24, the core count and the memory capacity those of the hardware
    profile, the utilization the one aggregated from the measurements, and
    the PUE and carbon intensity those resolved for the process. *)
Theorem energy_formula {num : Type} `{!Number num}
  (hardwareSpec : gmap string (gmap string Hardware)) (p : @Process num)
  (ms : @Measurements num) (byProvider : gmap string Hardware) (hardware : @Hardware num)
  (memoryUsage cpuUsage : num) :
  getMemoryUsage ms = Ok memoryUsage ->
  getCpuUsage ms = Ok cpuUsage ->
  hardwareSpec !! instanceSizeName (p_providerSettings p) = Some byProvider ->
  byProvider !! providerName (p_providerSettings p) = Some hardware ->
  energy <$> processUsageOf hardwareSpec p (Some ms)
  = Ok (lit 24
        * (CPU hardware * lit 12.4 * cpuUsage + memory hardware * lit 0.3725
           + p_diskSizeGb p * lit 0.001)
        * p_PUE p * lit 0.001 * p_gCO2ekWh p)%num
  /\ runningTimeHours (num := num) GRANULARITY_PARAMS = lit 24
  /\ (forall u : @ProcessUsage num,
        energy u
        = (lit 24
           * (u_nCpu u * lit 12.4 * u_cpuUsage u + u_memoryAvail u * lit 0.3725
              + u_diskSizeGb u * lit 0.001)
           * u_PUE u * lit 0.001 * u_gCO2ekWh u)%num).
Proof.
  intros Hmem Hcpu Hinst Hprov.
  split; [|split; [reflexivity | intros u; reflexivity]].
  unfold processUsageOf. simpl. rewrite Hmem. simpl. rewrite Hcpu. simpl.
  rewrite Hinst. simpl. rewrite Hprov. reflexivity.
Qed.

Lemma energy_formula_witness :
  energy <$> processUsageOf sampleHardware sampleProcess (Some (sampleMeasurements 1%float))
  = Ok 380.16719999999998%float.
Proof.
  etransitivity.
  - apply (energy_formula sampleHardware sampleProcess (sampleMeasurements 1%float)
             {[ "AWS" := {| CPU := 2%float; memory := 8%float |} ]}
             {| CPU := 2%float; memory := 8%float |} 3500000%float 1%float);
      vm_compute; reflexivity.
  - vm_compute. reflexivity.
Defined.

(** The whole pipeline on a one-cluster fleet with two hosts and no
    datacenter row: twice the estimate above. *)
Example main_sample :
  main parseDecimal [] sampleCI sampleHardware (fun _ => Some (sampleMeasurements 1%float))
    [sampleCluster "M30" "AWS" "us-east-1"; sampleCluster "M2" "AWS" "us-east-1"]
  = Ok 760.33439999999996%float.
Proof. vm_compute. reflexivity. Qed.

(** On binary64 numbers the energy is linear in the window length only up
    to rounding: the energy of 24 hours is neither 24 times the energy of
    one hour nor the energy of 8 hours plus that of 16 hours. *)
Example linearity_rounds_on_binary64 :
  energyFormula 24%float sampleUsage = 380.16719999999998%float
  /\ (24 * energyFormula 1%float sampleUsage)%float = 380.16720000000004%float
  /\ (energyFormula 8%float sampleUsage + energyFormula 16%float sampleUsage)%float
     = 380.16720000000004%float.
Proof. repeat split; reflexivity. Qed.

(** ** Memory samples and the estimate *)

Section MemoryIndependence.
Context {num : Type} `{!Number num}.

Lemma cpuLoop_ext (ms1 ms2 : @Measurements num) (metrics : list string) (totalUsage : num) :
  (forall metric, In metric metrics ->
                  getMeasurement ms1 metric = getMeasurement ms2 metric) ->
  cpuLoop ms1 metrics totalUsage = cpuLoop ms2 metrics totalUsage.
Proof.
  revert totalUsage.
  induction metrics as [|m metrics IH]; intros totalUsage Hext; [reflexivity|].
  simpl. rewrite (Hext m) by now left.
  destruct (getMeasurement ms2 m) as [dp|e]; simpl; [|reflexivity].
  apply IH. intros metric Hin. apply Hext. now right.
Qed.

Lemma memory_not_cpu_metric : ~ In METRICS_MEMORY_available METRICS_CPU.
Proof. simpl. intros H. repeat (destruct H as [H|H]; [discriminate|]). exact H. Qed.
End MemoryIndependence.

(** C9. The estimate of a process does not depend on the measured memory:
    two measurement sets that agree on every series but the
    memory-available one, and both have that series, give the same energy
    (and the same failure when the estimate fails). *)
Theorem energy_independent_of_memory_samples {num : Type} `{!Number num}
  (hardwareSpec : gmap string (gmap string Hardware)) (p : @Process num)
  (ms1 ms2 : @Measurements num) (available1 available2 : list (@DataPoint num)) :
  (forall metric, metric <> METRICS_MEMORY_available ->
                  getMeasurement ms1 metric = getMeasurement ms2 metric) ->
  getMeasurement ms1 METRICS_MEMORY_available = Ok available1 ->
  getMeasurement ms2 METRICS_MEMORY_available = Ok available2 ->
  energy <$> processUsageOf hardwareSpec p (Some ms1)
  = energy <$> processUsageOf hardwareSpec p (Some ms2).
Proof.
  intros Hext H1 H2.
  assert (Hcpu : getCpuUsage ms1 = getCpuUsage ms2).
  { unfold getCpuUsage. apply cpuLoop_ext. intros metric Hin. apply Hext.
    intros ->. now apply memory_not_cpu_metric in Hin. }
  unfold processUsageOf, getMemoryUsage. simpl.
  rewrite H1, H2, Hcpu. simpl.
  destruct (getCpuUsage ms2) as [cpu|e]; simpl; [|reflexivity].
  destruct (hardwareSpec !! instanceSizeName (p_providerSettings p)) as [byProvider|];
    simpl; [|reflexivity].
  destruct (byProvider !! providerName (p_providerSettings p)) as [hardware|];
    simpl; reflexivity.
Qed.

Lemma energy_independent_of_memory_samples_witness :
  energy <$> processUsageOf sampleHardware sampleProcess (Some (sampleMeasurements 1%float))
  = energy <$> processUsageOf sampleHardware sampleProcess
                 (Some (sampleMeasurementsLowMemory 1%float))
  /\ u_memoryUsageGb <$> processUsageOf sampleHardware sampleProcess
                           (Some (sampleMeasurements 1%float)) = Ok 3.5%float
  /\ u_memoryUsageGb <$> processUsageOf sampleHardware sampleProcess
                           (Some (sampleMeasurementsLowMemory 1%float)) = Ok 0.1%float.
Proof.
  split; [|split; vm_compute; reflexivity].
  apply (energy_independent_of_memory_samples sampleHardware sampleProcess
           (sampleMeasurements 1%float) (sampleMeasurementsLowMemory 1%float)
           (sampleSeries 3500000%float)
           (sampleSeries 120000%float ++ sampleSeries 80000%float)%list);
    [|reflexivity|reflexivity].
  intros metric Hne. unfold getMeasurement. simpl.
  rewrite !bool_decide_eq_false_2 by (intros E; apply Hne; now rewrite <- E).
  reflexivity.
Defined.

(** ** Empty series and NaN *)

Lemma float_add_nan_l (x : float) : PrimFloat.add nan x = nan.
Proof.
  apply Prim2SF_inj. rewrite FloatAxioms.add_spec.
  change (Prim2SF nan) with S754_nan. reflexivity.
Qed.

Lemma float_add_nan_r (x : float) : PrimFloat.add x nan = nan.
Proof.
  apply Prim2SF_inj. rewrite FloatAxioms.add_spec.
  change (Prim2SF nan) with S754_nan. destruct (Prim2SF x); reflexivity.
Qed.

Lemma float_mul_nan_l (x : float) : PrimFloat.mul nan x = nan.
Proof.
  apply Prim2SF_inj. rewrite FloatAxioms.mul_spec.
  change (Prim2SF nan) with S754_nan. reflexivity.
Qed.

Lemma float_mul_nan_r (x : float) : PrimFloat.mul x nan = nan.
Proof.
  apply Prim2SF_inj. rewrite FloatAxioms.mul_spec.
  change (Prim2SF nan) with S754_nan. destruct (Prim2SF x); reflexivity.
Qed.

(** Once one summand is NaN the running total of a left-to-right sum is
    NaN. *)
Lemma running_total_nan {A : Type} (f : A -> float) (l : list A) (a : A) (total : float) :
  In a l ->
  f a = nan ->
  fold_left (fun total x => PrimFloat.add total (f x)) l total = nan.
Proof.
  intros Hin Hnan. revert total.
  induction l as [|x l IH]; intros total; [destruct Hin|].
  cbn [fold_left]. destruct Hin as [->|Hin].
  - rewrite Hnan, float_add_nan_r. clear.
    induction l as [|x l IH]; cbn [fold_left]; [reflexivity|].
    now rewrite float_add_nan_l.
  - now apply IH.
Qed.

Lemma energy_nan (u : @ProcessUsage float) : u_cpuUsage u = nan -> energy u = nan.
Proof.
  intros Hnan. unfold energy, energyFormula. simpl. rewrite Hnan.
  now rewrite float_mul_nan_r, float_add_nan_l, float_add_nan_l, float_mul_nan_r,
    !float_mul_nan_l.
Qed.

(** C10. On binary64 numbers the average of the empty sample list is NaN
    (0 divided by the length 0) and nothing throws: a memory series that is
    present but empty gives a NaN memory average, and a CPU series that is
    present but empty makes the CPU utilization NaN and, the hardware
    profile being there, the energy of the process NaN. *)
Theorem empty_average_is_nan (hardwareSpec : gmap string (gmap string Hardware))
  (p : @Process float) (ms : @Measurements float)
  (series : string -> list (@DataPoint float)) (available : list (@DataPoint float))
  (metric : string) (byProvider : gmap string Hardware) (hardware : @Hardware float) :
  getDatapointsAvg (@nil (@DataPoint float)) = nan
  /\ (getMeasurement ms METRICS_MEMORY_available = Ok [] -> getMemoryUsage ms = Ok nan)
  /\ ((forall m, In m METRICS_CPU -> getMeasurement ms m = Ok (series m)) ->
      In metric METRICS_CPU ->
      series metric = [] ->
      getCpuUsage ms = Ok nan
      /\ (getMeasurement ms METRICS_MEMORY_available = Ok available ->
          hardwareSpec !! instanceSizeName (p_providerSettings p) = Some byProvider ->
          byProvider !! providerName (p_providerSettings p) = Some hardware ->
          exists u, processUsageOf hardwareSpec p (Some ms) = Ok u
                    /\ u_cpuUsage u = nan /\ energy u = nan)).
Proof.
  split; [reflexivity|]. split.
  - intros Hmem. unfold getMemoryUsage. rewrite Hmem. reflexivity.
  - intros Hall Hin Hempty.
    assert (Hcpu : getCpuUsage ms = Ok nan).
    { unfold getCpuUsage. rewrite (cpuLoop_present ms series) by assumption.
      f_equal.
      apply (running_total_nan (fun m => getDatapointsAvg (series m)) METRICS_CPU metric);
        [assumption|].
      rewrite Hempty. reflexivity. }
    split; [assumption|].
    intros Hmem Hinst Hprov.
    unfold processUsageOf, getMemoryUsage. simpl.
    rewrite Hmem. simpl. rewrite Hcpu. simpl. rewrite Hinst. simpl. rewrite Hprov. simpl.
    eexists. split; [reflexivity|]. split; [reflexivity|].
    now apply energy_nan.
Qed.

Lemma empty_average_is_nan_witness :
  getCpuUsage sampleMeasurementsEmptyIowait = Ok nan
  /\ energy <$> processUsageOf sampleHardware sampleProcess (Some sampleMeasurementsEmptyIowait)
     = Ok nan.
Proof.
  destruct (empty_average_is_nan sampleHardware sampleProcess sampleMeasurementsEmptyIowait
              (fun n => if bool_decide (n = "SYSTEM_NORMALIZED_CPU_IOWAIT")
                        then [] else sampleSeries 0.125%float)
              (sampleSeries 3500000%float) "SYSTEM_NORMALIZED_CPU_IOWAIT"
              {[ "AWS" := {| CPU := 2%float; memory := 8%float |} ]}
              {| CPU := 2%float; memory := 8%float |}) as (_ & _ & H).
  destruct H as [Hcpu Hu].
  - intros m Hm. simpl in Hm.
    repeat (destruct Hm as [<-|Hm]; [reflexivity|]). destruct Hm.
  - simpl. auto.
  - reflexivity.
  - split; [exact Hcpu|].
    destruct Hu as (u & -> & _ & Hnan); [reflexivity | reflexivity | reflexivity |].
    change (Ok (energy u) = Ok nan). now rewrite Hnan.
Defined.

(** * Further properties of the code *)

(** ** Splitting and parsing *)

Lemma joinWith_cons_char (sep c : ascii) (x : string) (r : list string) :
  joinWith sep (String c x :: r) = String c (joinWith sep (x :: r)).
Proof. destruct r; reflexivity. Qed.

Lemma split_joinWith (sep : ascii) (s : string) : joinWith sep (split sep s) = s.
Proof.
  induction s as [|c s IH]; [reflexivity|].
  cbn [split]. destruct (Ascii.eqb c sep) eqn:E.
  - apply Ascii.eqb_eq in E. subst c.
    pose proof (split_not_nil sep s) as Hne.
    cbn [joinWith]. destruct (split sep s) as [|x r]; [contradiction|].
    simpl. now rewrite <- IH.
  - pose proof (split_not_nil sep s) as Hne.
    destruct (split sep s) as [|x r]; [contradiction|].
    rewrite joinWith_cons_char. now rewrite IH.
Qed.

Lemma split_no_separator (sep : ascii) (s f : string) :
  In f (split sep s) -> hasChar sep f = false.
Proof.
  revert f. induction s as [|c s IH]; intros f; cbn [split].
  - intros [<-|[]]. reflexivity.
  - destruct (Ascii.eqb c sep) eqn:E.
    + intros [<-|Hin]; [reflexivity | now apply IH].
    + pose proof (split_not_nil sep s) as Hne.
      destruct (split sep s) as [|x r]; [contradiction|].
      intros [<-|Hin].
      * simpl. rewrite E. apply IH. now left.
      * apply IH. now right.
Qed.

Lemma split_keeps_absent (c sep : ascii) (s f : string) :
  hasChar c s = false -> In f (split sep s) -> hasChar c f = false.
Proof.
  revert f. induction s as [|a s IH]; intros f; cbn [split hasChar].
  - intros _ [<-|[]]. reflexivity.
  - intros Habs. apply orb_false_iff in Habs as [Ha Hs].
    destruct (Ascii.eqb a sep).
    + intros [<-|Hin]; [reflexivity | now apply IH].
    + pose proof (split_not_nil sep s) as Hne.
      destruct (split sep s) as [|x r]; [contradiction|].
      intros [<-|Hin].
      * simpl. rewrite Ha. apply IH; [assumption | now left].
      * apply IH; [assumption | now right].
Qed.

Lemma split_app_separator (sep : ascii) (a b : string) :
  hasChar sep a = false -> split sep (a ++ String sep b) = a :: split sep b.
Proof.
  induction a as [|c a IH]; cbn [hasChar]; intros Habs.
  - simpl. now rewrite Ascii.eqb_refl.
  - apply orb_false_iff in Habs as [Hc Ha].
    simpl. rewrite Hc, (IH Ha). reflexivity.
Qed.

Lemma split_no_separator_id (sep : ascii) (a : string) :
  hasChar sep a = false -> split sep a = [a].
Proof.
  induction a as [|c a IH]; cbn [hasChar]; intros Habs; [reflexivity|].
  apply orb_false_iff in Habs as [Hc Ha].
  simpl. rewrite Hc, (IH Ha). reflexivity.
Qed.

Lemma joinWith_split (sep : ascii) (l : list string) :
  l <> [] ->
  Forall (fun f => hasChar sep f = false) l ->
  split sep (joinWith sep l) = l.
Proof.
  intros Hne Hall. induction Hall as [|x l Hx Hall IH]; [contradiction|].
  destruct l as [|y l].
  - simpl. now apply split_no_separator_id.
  - change (joinWith sep (x :: y :: l)) with (x ++ String sep (joinWith sep (y :: l))).
    rewrite split_app_separator by assumption.
    now rewrite IH.
Qed.

(** X1. Parsing a reference file loses nothing and splits completely: the
    fields of the rows, joined by commas and newlines again, are the text of
    the file, and no field holds a comma or a newline. *)
Theorem parseCsv_round_trip (content : string) :
  unparseCsv (parseCsv content) = content
  /\ (forall row field,
        In row (parseCsv content) -> In field row ->
        hasChar "," field = false /\ hasChar "010" field = false).
Proof.
  split.
  - unfold unparseCsv, parseCsv. rewrite map_map.
    rewrite (map_ext _ (fun l => l)) by (intros l; apply split_joinWith).
    rewrite map_id. apply split_joinWith.
  - intros row field Hrow Hfield. unfold parseCsv in Hrow.
    apply in_map_iff in Hrow as (line & <- & Hline).
    split; [now apply (split_no_separator "," line)|].
    apply (split_keeps_absent "010" "," line); [|assumption].
    now apply (split_no_separator "010" content).
Qed.

(** X2. The first line of a reference file is its first row, whatever it
    holds: parsing does not skip a header line, and the rest of the file is
    parsed on its own. *)
Theorem parseCsv_first_line (line rest : string) :
  hasChar "010" line = false ->
  parseCsv (line ++ String "010" rest) = split "," line :: parseCsv rest.
Proof.
  intros Hline. unfold parseCsv.
  rewrite split_app_separator by assumption. reflexivity.
Qed.

Lemma parseCsv_first_line_witness :
  parseCsv ("provider,region,location" ++ String "010" "aws,us-east-1,US-VA")
  = [ ["provider"; "region"; "location"]; ["aws"; "us-east-1"; "US-VA"] ].
Proof.
  rewrite (parseCsv_first_line "provider,region,location" "aws,us-east-1,US-VA" eq_refl).
  reflexivity.
Defined.

(** ** Connection strings *)

Lemma substring_all (s : string) : substring 0 (String.length s) s = s.
Proof. induction s as [|c s IH]; simpl; [reflexivity | now rewrite IH]. Qed.

Lemma substring_app_l (a b : string) : substring 0 (String.length a) (a ++ b) = a.
Proof.
  induction a as [|c a IH]; simpl; [now destruct b | now rewrite IH].
Qed.

Lemma substring_app_r (a b : string) :
  substring (String.length a) (String.length b) (a ++ b) = b.
Proof. induction a as [|c a IH]; simpl; [apply substring_all | assumption]. Qed.

Lemma length_app (a b : string) :
  String.length (a ++ b) = (String.length a + String.length b)%nat.
Proof. induction a as [|c a IH]; simpl; [reflexivity | now rewrite IH]. Qed.

(** A pattern the string starts with is removed there. *)
Lemma removeFirst_prefix (a : ascii) (pat s : string) :
  removeFirst (String a pat) (String a pat ++ s) = s.
Proof.
  unfold removeFirst.
  assert (Hidx : index 0 (String a pat) (String a pat ++ s) = Some 0%nat).
  { change (String a pat ++ s) with (String a (pat ++ s)). cbn [index].
    change (String a (pat ++ s)) with (String a pat ++ s).
    now rewrite (proj2 (prefix_correct _ _) (substring_app_l (String a pat) s)). }
  rewrite Hidx. rewrite length_app.
  replace (String.length (String a pat) + String.length s - (0 + String.length (String a pat)))%nat
    with (String.length s) by lia.
  change (0 + String.length (String a pat))%nat with (String.length (String a pat)).
  rewrite substring_app_r. reflexivity.
Qed.

Lemma removeFirst_scheme (s : string) : removeFirst "mongodb://" ("mongodb://" ++ s) = s.
Proof. apply removeFirst_prefix. Qed.

(** X3. A connection string that is the scheme "mongodb://" followed by one
    or more hosts joined by commas gives one process per host, in order,
    with the host as its id. *)
Theorem clusterProcesses_hosts {num : Type} `{!Number num} (c : @Cluster num)
  (PUE gCO2ekWh : num) (hosts : list string) :
  hosts <> [] ->
  Forall (fun h => hasChar "," h = false) hosts ->
  c_mongoURI c = "mongodb://" ++ joinWith "," hosts ->
  map p_id (clusterProcesses c PUE gCO2ekWh) = hosts.
Proof.
  intros Hne Hhosts Huri. unfold clusterProcesses.
  rewrite Huri, removeFirst_scheme, joinWith_split by assumption.
  rewrite map_map. simpl. apply map_id.
Qed.

Lemma clusterProcesses_hosts_witness :
  map p_id (clusterProcesses (sampleCluster "M30" "AWS" "us-east-1") 1.2%float 475%float)
  = ["h0.example.net:27017"; "h1.example.net:27017"].
Proof.
  apply (clusterProcesses_hosts (sampleCluster "M30" "AWS" "us-east-1") 1.2%float 475%float
           ["h0.example.net:27017"; "h1.example.net:27017"]).
  - discriminate.
  - repeat constructor.
  - reflexivity.
Defined.

(** ** More on the resolution *)

Lemma stripSeparators_clean (c : ascii) (s : string) :
  hasChar c (stripSeparators s) = true -> isSeparator c = false /\ hasChar c s = true.
Proof.
  induction s as [|a s IH]; simpl; [discriminate|].
  destruct (isSeparator a) eqn:Ea; simpl.
  - intros H. destruct (IH H) as [H1 H2]. split; [assumption|].
    rewrite H2. apply orb_true_r.
  - intros H. apply orb_true_iff in H as [H|H].
    + apply Ascii.eqb_eq in H. subst a. split; [assumption|].
      now rewrite Ascii.eqb_refl.
    + destruct (IH H) as [H1 H2]. split; [assumption|].
      rewrite H2. apply orb_true_r.
Qed.

Lemma toUpperCase_upper (c : ascii) (s : string) :
  hasChar c (toUpperCase s) = true -> toUpperCaseChar c = c.
Proof.
  induction s as [|a s IH]; simpl; [discriminate|].
  intros H. apply orb_true_iff in H as [H|H]; [|now apply IH].
  apply Ascii.eqb_eq in H. subst c. apply toUpperCaseChar_idem.
Qed.

(** X7. The normal form of a region holds no separator ('_', '-', ' ') and
    no lower-case letter. *)
Theorem normalizeRegion_clean (s : string) (c : ascii) :
  hasChar c (normalizeRegion s) = true ->
  isSeparator c = false /\ toUpperCaseChar c = c.
Proof.
  unfold normalizeRegion. intros H.
  destruct (stripSeparators_clean c _ H) as [Hsep Hin].
  split; [assumption|]. now apply (toUpperCase_upper c s).
Qed.

Lemma normalizeRegion_clean_witness :
  isSeparator "E" = false /\ toUpperCaseChar "E" = "E"%char.
Proof. apply (normalizeRegion_clean "us-east-1" "E"). reflexivity. Defined.

(** X4. The resolved PUE and carbon intensity depend on the provider name
    only up to case, on the region name only up to case and separators, and
    not on the instance size: on any tables, two settings that agree in
    that sense resolve alike (to the same factors, or both to an error). *)
Theorem resolveFactors_spelling {num : Type} `{!Number num} (parseFloat : string -> num)
  (cloudProviders ciAggregated : list (list string)) (s1 s2 : ProviderSettings) :
  toUpperCase (providerName s1) = toUpperCase (providerName s2) ->
  normalizeRegion (regionName s1) = normalizeRegion (regionName s2) ->
  resolveFactors parseFloat cloudProviders ciAggregated s1
  = resolveFactors parseFloat cloudProviders ciAggregated s2.
Proof.
  intros Hp Hr. unfold resolveFactors.
  rewrite Hp, (findCloudProvider_normal cloudProviders _ _ _ Hr). reflexivity.
Qed.

Lemma resolveFactors_spelling_witness :
  resolveFactors parseDecimal sampleDatacenters sampleCI
    {| instanceSizeName := "M10"; providerName := "aws"; regionName := "US_EAST 1" |}
  = resolveFactors parseDecimal sampleDatacenters sampleCI
      {| instanceSizeName := "M30"; providerName := "AWS"; regionName := "us-east-1" |}.
Proof.
  apply (resolveFactors_spelling parseDecimal sampleDatacenters sampleCI
           {| instanceSizeName := "M10"; providerName := "aws"; regionName := "US_EAST 1" |}
           {| instanceSizeName := "M30"; providerName := "AWS"; regionName := "us-east-1" |});
    reflexivity.
Defined.

Lemma readableFor_dec (provider : string) (row : list string) :
  readableFor provider row \/ ~ readableFor provider row.
Proof.
  destruct row as [|p [|r row]].
  - right. intros (p & Hp & _). discriminate.
  - destruct (decide (toUpperCase p = toUpperCase provider)) as [E|E].
    + right. intros (p' & Hp & Hr). injection Hp as <-.
      destruct (Hr E) as (r & Hr'). discriminate.
    + left. exists p. split; [reflexivity|]. intros E'. contradiction.
  - left. apply two_fields_readable. simpl. lia.
Qed.

Lemma matchesDatacenter_unreadable (provider region : string) (row : list string) :
  ~ readableFor provider row ->
  matchesDatacenter (toUpperCase provider) (toUpperCase region) row = Throw TypeError.
Proof.
  intros Hun. unfold matchesDatacenter.
  destruct (row !! 0%nat) as [p|] eqn:Hp; [|reflexivity]. simpl.
  destruct (bool_decide (toUpperCase p = toUpperCase provider)) eqn:Ep.
  - destruct (row !! 1%nat) as [r|] eqn:Hr; [|reflexivity].
    exfalso. apply Hun. exists p. split; [assumption|]. intros _. now exists r.
  - apply bool_decide_eq_false in Ep.
    exfalso. apply Hun. exists p. split; [assumption|]. intros E. contradiction.
Qed.

(** X5. The datacenter lookup throws exactly when, going down the table,
    it meets a row it cannot read (no provider field, or the provider
    looked for and no region field) before any row matches. *)
Theorem findCloudProvider_throws (table : list (list string)) (provider region : string) :
  findCloudProvider table (toUpperCase provider) (toUpperCase region) = Throw TypeError
  <-> exists pre row post,
        table = (pre ++ row :: post)%list
        /\ Forall (fun x => readableFor provider x /\ ~ recordMatches provider region x) pre
        /\ ~ readableFor provider row.
Proof.
  unfold findCloudProvider.
  induction table as [|x table IH]; simpl.
  - split; [discriminate|]. intros (pre & row & post & E & _). now destruct pre.
  - destruct (readableFor_dec provider x) as [Hx|Hx].
    + destruct (matchesDatacenter_spec provider region x Hx) as (b & -> & Hb). simpl.
      destruct b.
      * split; [discriminate|].
        intros (pre & row & post & E & Hpre & Hrow). destruct pre as [|y pre]; simpl in E.
        -- injection E as <- _. contradiction.
        -- injection E as <- _. apply Forall_cons in Hpre as [[_ Hy] _].
           exfalso. apply Hy. now apply Hb.
      * rewrite IH. split.
        -- intros (pre & row & post & -> & Hpre & Hrow).
           exists (x :: pre), row, post. split; [reflexivity|]. split; [|assumption].
           constructor; [|assumption]. split; [assumption|].
           intros Hm. apply Hb in Hm. discriminate.
        -- intros (pre & row & post & E & Hpre & Hrow). destruct pre as [|y pre]; simpl in E.
           ++ injection E as <- _. contradiction.
           ++ injection E as _ ->. apply Forall_cons in Hpre as [_ Hpre].
              now exists pre, row, post.
    + rewrite (matchesDatacenter_unreadable provider region x Hx). simpl.
      split; [|reflexivity]. intros _.
      exists [], x, table. split; [reflexivity|]. split; [constructor | assumption].
Qed.

(** X6. A matched datacenter row that stops before its PUE field does not
    keep the provider default: the PUE is [parseFloat] of the missing field,
    that is of the text "undefined"; and likewise the carbon intensity when
    the carbon-intensity row found for it stops before its value field. *)
Theorem short_rows_parse_undefined {num : Type} `{!Number num}
  (parseFloat : string -> num) (cloudProviders ciAggregated : list (list string))
  (settings : ProviderSettings) (row : list string) :
  Forall (readableFor (providerName settings)) cloudProviders ->
  firstMatch (providerName settings) (regionName settings) cloudProviders row ->
  exists PUE gCO2ekWh : num,
    resolveFactors parseFloat cloudProviders ciAggregated settings = Ok (PUE, gCO2ekWh)
    /\ (row !! 6%nat = None -> PUE = parseFloat "undefined")
    /\ (forall ci,
          find_js (fun ci => bool_decide (ci !! 0%nat = row !! 2%nat)) ciAggregated = Some ci ->
          ci !! 4%nat = None -> gCO2ekWh = parseFloat "undefined").
Proof.
  intros Hwf Hfirst.
  apply (findCloudProvider_found _ _ _ _ Hwf) in Hfirst.
  unfold resolveFactors. rewrite Hfirst. simpl.
  eexists _, _. split; [reflexivity|]. split.
  - intros ->. reflexivity.
  - intros ci -> ->. reflexivity.
Qed.

Lemma short_rows_parse_undefined_witness :
  resolveFactors parseDecimal shortDatacenters shortCI
    {| instanceSizeName := "M10"; providerName := "AZURE"; regionName := "west_europe" |}
  = Ok (nan, nan).
Proof.
  assert (Hwf : Forall (readableFor "AZURE") shortDatacenters) by readable_rows.
  assert (Hfirst : firstMatch "AZURE" "west_europe" shortDatacenters
                     ["azure"; "West Europe"; "NL"]).
  { apply (findCloudProvider_found _ _ _ _ Hwf). reflexivity. }
  destruct (short_rows_parse_undefined parseDecimal shortDatacenters shortCI
              {| instanceSizeName := "M10"; providerName := "AZURE"; regionName := "west_europe" |}
              _ Hwf Hfirst) as (PUE & ci & Hres & Hpue & Hci).
  rewrite Hres, (Hpue eq_refl), (Hci ["NL"; "Netherlands"] eq_refl eq_refl).
  reflexivity.
Defined.

(** ** Measurements *)

Lemma find_js_first {A : Type} (f : A -> bool) (l : list A) (x : A) :
  find_js f l = Some x
  <-> exists pre post, l = (pre ++ x :: post)%list /\ f x = true
                       /\ Forall (fun y => f y = false) pre.
Proof.
  induction l as [|a l IH]; simpl.
  - split; [discriminate|]. intros (pre & post & E & _). now destruct pre.
  - destruct (f a) eqn:Ea.
    + split.
      * intros [= <-]. exists [], l. split; [reflexivity|]. split; [assumption | constructor].
      * intros (pre & post & E & Hx & Hpre). destruct pre as [|y pre]; simpl in E.
        -- now injection E as ->.
        -- injection E as <- _. apply Forall_cons in Hpre as [Hy _]. congruence.
    + rewrite IH. split.
      * intros (pre & post & -> & Hx & Hpre). exists (a :: pre), post.
        split; [reflexivity|]. split; [assumption|]. now constructor.
      * intros (pre & post & E & Hx & Hpre). destruct pre as [|y pre]; simpl in E.
        -- injection E as <- _. congruence.
        -- injection E as _ ->. apply Forall_cons in Hpre as [_ Hpre]. now exists pre, post.
Qed.

Lemma find_js_app {A : Type} (f : A -> bool) (l1 l2 : list A) :
  find_js f (l1 ++ l2)%list
  = match find_js f l1 with Some x => Some x | None => find_js f l2 end.
Proof.
  induction l1 as [|a l1 IH]; simpl; [reflexivity|].
  destruct (f a); [reflexivity | assumption].
Qed.

Lemma find_js_some {A : Type} (f : A -> bool) (l : list A) (a : A) :
  In a l -> f a = true -> exists x, find_js f l = Some x.
Proof.
  induction l as [|b l IH]; simpl; [intros []|].
  intros [->|Hin] Ha.
  - rewrite Ha. now eexists.
  - destruct (f b); [now eexists | now apply IH].
Qed.

(** X8. A series is looked up by exact name and the first measurement of
    that name wins: [getMeasurement] returns the data points [dp] exactly
    when the measurement set is some measurements of other names, then one
    of that name with data points [dp], then anything. *)
Theorem getMeasurement_first {num : Type} `{!Number num} (ms : @Measurements num)
  (metric : string) (dp : list DataPoint) :
  getMeasurement ms metric = Ok dp
  <-> exists pre m post,
        measurements ms = (pre ++ m :: post)%list
        /\ name m = metric /\ dataPoints m = dp
        /\ Forall (fun x => name x <> metric) pre.
Proof.
  unfold getMeasurement. split.
  - destruct (find_js _ (measurements ms)) as [m|] eqn:Hfind; simpl; [|discriminate].
    intros [= <-]. apply find_js_first in Hfind as (pre & post & E & Hm & Hpre).
    exists pre, m, post. split; [assumption|].
    split; [now apply bool_decide_eq_true in Hm|]. split; [reflexivity|].
    eapply Forall_impl; [exact Hpre|]. intros x Hx. now apply bool_decide_eq_false in Hx.
  - intros (pre & m & post & E & Hm & Hdp & Hpre).
    assert (Hfind : find_js (fun m => bool_decide (name m = metric)) (measurements ms) = Some m).
    { apply find_js_first. exists pre, post. split; [assumption|].
      split; [now apply bool_decide_eq_true|].
      eapply Forall_impl; [exact Hpre|]. intros x Hx. now apply bool_decide_eq_false. }
    rewrite Hfind. simpl. now rewrite Hdp.
Qed.

(** X9. The CPU utilization is blind to measurements it does not look up: a
    measurement whose name is none of the eight CPU metric names, or that
    comes after a measurement of the same name, can be put anywhere in the
    measurement set without changing [getCpuUsage] (value or error). *)
Theorem getCpuUsage_ignores {num : Type} `{!Number num}
  (pre post : list (@Measurement num)) (m : @Measurement num) :
  ~ In (name m) METRICS_CPU \/ (exists m', In m' pre /\ name m' = name m) ->
  getCpuUsage {| measurements := (pre ++ m :: post)%list |}
  = getCpuUsage {| measurements := (pre ++ post)%list |}.
Proof.
  intros Hm. unfold getCpuUsage. apply cpuLoop_ext.
  intros metric Hin. unfold getMeasurement. simpl.
  rewrite !find_js_app. simpl.
  destruct (find_js (fun m0 => bool_decide (name m0 = metric)) pre) as [x|] eqn:Hpre;
    [reflexivity|].
  destruct (bool_decide (name m = metric)) eqn:Em; [|reflexivity].
  apply bool_decide_eq_true in Em. exfalso.
  destruct Hm as [Hno|(m' & Hin' & Hname)].
  - apply Hno. now rewrite Em.
  - destruct (find_js_some (fun m0 => bool_decide (name m0 = metric)) pre m' Hin')
      as (x & Hx); [apply bool_decide_eq_true; congruence | congruence].
Qed.

Lemma getCpuUsage_ignores_witness :
  getCpuUsage
    {| measurements :=
         [ {| name := "SYSTEM_MEMORY_AVAILABLE"; dataPoints := sampleSeries 3500000%float |};
           {| name := "DISK_PARTITION_IOPS_READ"; dataPoints := sampleSeries 9%float |} ]
         ++ measurements (sampleMeasurements 0.25%float) |}
  = Ok 0.25%float.
Proof.
  rewrite (getCpuUsage_ignores
             [ {| name := "SYSTEM_MEMORY_AVAILABLE"; dataPoints := sampleSeries 3500000%float |} ]
             (measurements (sampleMeasurements 0.25%float))
             {| name := "DISK_PARTITION_IOPS_READ"; dataPoints := sampleSeries 9%float |}).
  - reflexivity.
  - left. simpl. intros H. repeat (destruct H as [H|H]; [discriminate|]). exact H.
Defined.

Lemma getMeasurement_present {num : Type} `{!Number num} (ms : @Measurements num)
  (metric : string) :
  (exists m, In m (measurements ms) /\ name m = metric)
  <-> exists dp, getMeasurement ms metric = Ok dp.
Proof.
  split.
  - intros (m & Hin & Hname). unfold getMeasurement.
    destruct (find_js_some (fun m0 => bool_decide (name m0 = metric)) (measurements ms) m Hin)
      as (x & ->); [now apply bool_decide_eq_true|].
    now eexists.
  - intros (dp & Hdp). apply getMeasurement_first in Hdp as (pre & m & post & E & Hm & _).
    exists m. split; [|assumption]. rewrite E. apply in_or_app. right. now left.
Qed.

Lemma cpuLoop_ok {num : Type} `{!Number num} (ms : @Measurements num)
  (metrics : list string) (totalUsage : num) :
  (exists cpu, cpuLoop ms metrics totalUsage = Ok cpu)
  <-> forall metric, In metric metrics -> exists dp, getMeasurement ms metric = Ok dp.
Proof.
  revert totalUsage. induction metrics as [|m metrics IH]; intros totalUsage; simpl.
  - split; [intros _ metric [] | intros _; now eexists].
  - destruct (getMeasurement ms m) as [dp|e] eqn:Hm; simpl.
    + rewrite IH. split.
      * intros H metric [<-|Hin]; [now exists dp | now apply H].
      * intros H metric Hin. apply H. now right.
    + split.
      * intros (cpu & Hcpu). discriminate.
      * intros H. destruct (H m) as (dp & Hdp); [now left | congruence].
Qed.

(** ** When the estimate of a process exists *)

(** X11. The usage of a process is computed exactly when the fetch
    returned a measurement set, the set has a series for the
    memory-available metric and for each of the eight CPU metrics, and the
    hardware table has an entry for the instance size and, under it, for the
    provider name as the cluster spells it; in every other case it throws.
    A computed usage carries the PUE, carbon intensity and disk size of the
    process, and the provider name in upper case. *)
Theorem processUsageOf_succeeds {num : Type} `{!Number num}
  (hardwareSpec : gmap string (gmap string Hardware)) (p : @Process num)
  (fetched : option (@Measurements num)) :
  ((exists u, processUsageOf hardwareSpec p fetched = Ok u)
   <-> exists ms byProvider hardware,
         fetched = Some ms
         /\ (forall metric, In metric (METRICS_MEMORY_available :: METRICS_CPU) ->
                            exists m, In m (measurements ms) /\ name m = metric)
         /\ hardwareSpec !! instanceSizeName (p_providerSettings p) = Some byProvider
         /\ byProvider !! providerName (p_providerSettings p) = Some hardware)
  /\ (forall u, processUsageOf hardwareSpec p fetched = Ok u ->
                u_PUE u = p_PUE p /\ u_gCO2ekWh u = p_gCO2ekWh p
                /\ u_diskSizeGb u = p_diskSizeGb p
                /\ u_providerName u = toUpperCase (providerName (p_providerSettings p))).
Proof.
  split.
  - split.
    + intros (u & Hu). unfold processUsageOf in Hu.
      destruct fetched as [ms|]; simpl in Hu; [|discriminate].
      unfold getMemoryUsage in Hu.
      destruct (getMeasurement ms METRICS_MEMORY_available) as [dpm|] eqn:Hmem;
        simpl in Hu; [|discriminate].
      destruct (getCpuUsage ms) as [cpu|] eqn:Hcpu; simpl in Hu; [|discriminate].
      destruct (hardwareSpec !! instanceSizeName (p_providerSettings p)) as [byProvider|]
        eqn:Hinst; simpl in Hu; [|discriminate].
      destruct (byProvider !! providerName (p_providerSettings p)) as [hardware|]
        eqn:Hprov; simpl in Hu; [|discriminate].
      exists ms, byProvider, hardware. repeat split; try assumption.
      intros metric [<-|Hin].
      * apply getMeasurement_present. now exists dpm.
      * apply getMeasurement_present.
        apply (proj1 (cpuLoop_ok ms METRICS_CPU (lit 0))); [now exists cpu | assumption].
    + intros (ms & byProvider & hardware & -> & Hall & Hinst & Hprov).
      unfold processUsageOf, getMemoryUsage. simpl.
      destruct (proj1 (getMeasurement_present ms METRICS_MEMORY_available)) as (dpm & ->);
        [apply Hall; now left|]. simpl.
      destruct (proj2 (cpuLoop_ok ms METRICS_CPU (lit 0))) as (cpu & Hcpu).
      { intros metric Hin. apply getMeasurement_present. apply Hall. now right. }
      unfold getCpuUsage. rewrite Hcpu. simpl. rewrite Hinst. simpl. rewrite Hprov. simpl.
      now eexists.
  - intros u Hu. unfold processUsageOf in Hu.
    destruct fetched as [ms|]; simpl in Hu; [|discriminate].
    destruct (getMemoryUsage ms) as [mem|]; simpl in Hu; [|discriminate].
    destruct (getCpuUsage ms) as [cpu|]; simpl in Hu; [|discriminate].
    destruct (hardwareSpec !! instanceSizeName (p_providerSettings p)) as [byProvider|];
      simpl in Hu; [|discriminate].
    destruct (byProvider !! providerName (p_providerSettings p)) as [hardware|];
      simpl in Hu; [|discriminate].
    injection Hu as <-. simpl. auto.
Qed.

(** The resolution reads the provider name up to case, the hardware table
    does not: a cluster that spells its provider "aws" resolves like "AWS"
    and then has no hardware profile. *)
Example hardware_lookup_case_sensitive :
  processUsageOf sampleHardware sampleProcess (Some (sampleMeasurements 1%float))
  <> Throw TypeError
  /\ processUsageOf sampleHardware
       {| p_id := p_id sampleProcess; p_cluster := p_cluster sampleProcess;
          p_providerSettings :=
            {| instanceSizeName := "M30"; providerName := "aws"; regionName := "us-east-1" |};
          p_diskSizeGb := 10%float; p_PUE := 1.2%float; p_gCO2ekWh := 475%float |}
       (Some (sampleMeasurements 1%float))
     = Throw TypeError.
Proof. split; [discriminate | reflexivity]. Qed.

(** ** All or nothing *)

Lemma mapM_throw {A B : Type} (f : A -> result B) (l : list A) (x : A) :
  In x l -> f x = Throw TypeError -> mapM f l = Throw TypeError.
Proof.
  induction l as [|a l IH]; [intros []|].
  intros Hin Hx. simpl.
  destruct (f a) as [y|[]] eqn:Ha; simpl; [|reflexivity].
  destruct Hin as [->|Hin]; [congruence|].
  rewrite (IH Hin Hx). reflexivity.
Qed.

(** X12. One failing process fails the whole estimate: when the usage of
    one materialized process throws (its fetch returned [undefined], a
    series is missing, or it has no hardware profile), [main] throws and
    reports no total, whatever the other processes give. *)
Theorem main_all_or_nothing {num : Type} `{!Number num} (parseFloat : string -> num)
  (cloudProviders ciAggregated : list (list string))
  (hardwareSpec : gmap string (gmap string Hardware))
  (fetchMeasurements : string -> option Measurements) (clusters : list Cluster)
  (processes : list Process) (mapped : list (option Cluster)) (p : Process) :
  mapClusters parseFloat cloudProviders ciAggregated [] clusters = Ok (processes, mapped) ->
  In p processes ->
  processUsageOf hardwareSpec p (fetchMeasurements (p_id p)) = Throw TypeError ->
  main parseFloat cloudProviders ciAggregated hardwareSpec fetchMeasurements clusters
  = Throw TypeError.
Proof.
  intros Hmap Hin Hp. unfold main. rewrite Hmap. simpl.
  rewrite (mapM_throw (fun p => processUsageOf hardwareSpec p (fetchMeasurements (p_id p)))
             processes p Hin Hp).
  reflexivity.
Qed.

Lemma main_all_or_nothing_witness :
  main parseDecimal sampleDatacenters sampleCI sampleHardware
    (fun id => if bool_decide (id = "h1.example.net:27017") then None
               else Some (sampleMeasurements 1%float))
    [sampleCluster "M30" "AWS" "us-east-1"]
  = Throw TypeError.
Proof.
  eapply (main_all_or_nothing parseDecimal sampleDatacenters sampleCI sampleHardware
            (fun id => if bool_decide (id = "h1.example.net:27017") then None
                       else Some (sampleMeasurements 1%float))
            [sampleCluster "M30" "AWS" "us-east-1"]).
  - reflexivity.
  - right. left. reflexivity.
  - reflexivity.
Defined.

(** ** Fleets *)

Section Fleets.
Context {num : Type} `{!Number num}.
Variable parseFloat : string -> num.
Variable cloudProviders ciAggregated : list (list string).

Lemma clusterStep_cases (processes processes' : list Process) (c : Cluster)
  (r : option Cluster) :
  clusterStep parseFloat cloudProviders ciAggregated processes c = Ok (processes', r) ->
  (belowM10 (instanceSizeName (c_providerSettings c)) = true
   /\ processes' = processes /\ r = None)
  \/ (belowM10 (instanceSizeName (c_providerSettings c)) = false
      /\ exists PUE gCO2ekWh,
           resolveFactors parseFloat cloudProviders ciAggregated (c_providerSettings c)
           = Ok (PUE, gCO2ekWh)
           /\ processes' = (processes ++ clusterProcesses c PUE gCO2ekWh)%list
           /\ r = Some c).
Proof.
  unfold clusterStep.
  change (bool_decide (instanceSizeName (c_providerSettings c) = "M0")
          || bool_decide (instanceSizeName (c_providerSettings c) = "M2")
          || bool_decide (instanceSizeName (c_providerSettings c) = "M5"))
    with (belowM10 (instanceSizeName (c_providerSettings c))).
  destruct (belowM10 (instanceSizeName (c_providerSettings c))).
  - intros [= <- <-]. left. auto.
  - destruct (resolveFactors _ _ _ _) as [[PUE ci]|e]; simpl; [|discriminate].
    intros [= <- <-]. right. split; [reflexivity|]. now exists PUE, ci.
Qed.

Lemma clusterStep_acc (processes : list Process) (c : Cluster) :
  clusterStep parseFloat cloudProviders ciAggregated processes c
  = match clusterStep parseFloat cloudProviders ciAggregated [] c with
    | Ok (new, r) => Ok ((processes ++ new)%list, r)
    | Throw e => Throw e
    end.
Proof.
  unfold clusterStep.
  destruct (bool_decide _ || bool_decide _ || bool_decide _).
  - now rewrite app_nil_r.
  - destruct (resolveFactors _ _ _ _) as [[PUE ci]|e]; reflexivity.
Qed.

Lemma mapClusters_acc (processes : list Process) (clusters : list Cluster) :
  mapClusters parseFloat cloudProviders ciAggregated processes clusters
  = match mapClusters parseFloat cloudProviders ciAggregated [] clusters with
    | Ok (new, rs) => Ok ((processes ++ new)%list, rs)
    | Throw e => Throw e
    end.
Proof.
  revert processes. induction clusters as [|c clusters IH]; intros processes.
  - simpl. now rewrite app_nil_r.
  - cbn [mapClusters]. rewrite (clusterStep_acc processes c).
    destruct (clusterStep _ _ _ [] c) as [[new r]|e]; simpl; [|reflexivity].
    rewrite (IH (processes ++ new)%list), (IH new).
    destruct (mapClusters _ _ _ [] clusters) as [[new' rs]|e]; simpl; [|reflexivity].
    now rewrite app_assoc.
Qed.

Lemma mapClusters_app (cs1 cs2 : list Cluster) :
  mapClusters parseFloat cloudProviders ciAggregated [] (cs1 ++ cs2)%list
  = match mapClusters parseFloat cloudProviders ciAggregated [] cs1 with
    | Ok (ps1, rs1) =>
        match mapClusters parseFloat cloudProviders ciAggregated [] cs2 with
        | Ok (ps2, rs2) => Ok ((ps1 ++ ps2)%list, (rs1 ++ rs2)%list)
        | Throw e => Throw e
        end
    | Throw e => Throw e
    end.
Proof.
  induction cs1 as [|c cs1 IH].
  - simpl. destruct (mapClusters _ _ _ [] cs2) as [[ps2 rs2]|e]; reflexivity.
  - cbn [app mapClusters].
    destruct (clusterStep _ _ _ [] c) as [[new r]|e]; simpl; [|reflexivity].
    rewrite (mapClusters_acc new (cs1 ++ cs2)%list), (mapClusters_acc new cs1), IH.
    destruct (mapClusters _ _ _ [] cs1) as [[ps1 rs1]|e1]; simpl; [|reflexivity].
    destruct (mapClusters _ _ _ [] cs2) as [[ps2 rs2]|e2]; simpl; [|reflexivity].
    now rewrite app_assoc.
Qed.
End Fleets.

(** X13. Materialization composes over fleets: the processes and kept
    clusters of a fleet made of two parts are those of the first part
    followed by those of the second, and the whole fails exactly when a
    part fails. *)
Theorem fleet_materialization_composes {num : Type} `{!Number num}
  (parseFloat : string -> num) (cloudProviders ciAggregated : list (list string))
  (cs1 cs2 : list (@Cluster num)) :
  materialized <$> mapClusters parseFloat cloudProviders ciAggregated [] (cs1 ++ cs2)%list
  = match materialized <$> mapClusters parseFloat cloudProviders ciAggregated [] cs1,
          materialized <$> mapClusters parseFloat cloudProviders ciAggregated [] cs2 with
    | Ok (ps1, kept1), Ok (ps2, kept2) => Ok ((ps1 ++ ps2)%list, (kept1 ++ kept2)%list)
    | Throw e, _ => Throw e
    | Ok _, Throw e => Throw e
    end.
Proof.
  rewrite mapClusters_app.
  destruct (mapClusters _ _ _ [] cs1) as [[ps1 rs1]|e1]; simpl; [|reflexivity].
  destruct (mapClusters _ _ _ [] cs2) as [[ps2 rs2]|e2]; simpl; [|reflexivity].
  unfold materialized, keptClusters. simpl. now rewrite omap_app.
Qed.

(** X14. What a successful materialization keeps: the kept clusters are the
    clusters that are not M0, M2 or M5, in order; the processes that were
    there stay, in front; every new process belongs to a kept cluster,
    whose name, provider settings and disk size it carries together with
    the factors resolved for that cluster; and every kept cluster has a
    process. *)
Theorem materialization_invariants {num : Type} `{!Number num}
  (parseFloat : string -> num) (cloudProviders ciAggregated : list (list string))
  (clusters : list (@Cluster num)) (processes processes' : list Process)
  (mapped : list (option Cluster)) :
  mapClusters parseFloat cloudProviders ciAggregated processes clusters
  = Ok (processes', mapped) ->
  keptClusters mapped
  = List.filter (fun c => negb (belowM10 (instanceSizeName (c_providerSettings c)))) clusters
  /\ exists new,
       processes' = (processes ++ new)%list
       /\ Forall (fun p =>
                    exists c, In c clusters
                      /\ belowM10 (instanceSizeName (c_providerSettings c)) = false
                      /\ p_cluster p = c_name c
                      /\ p_providerSettings p = c_providerSettings c
                      /\ p_diskSizeGb p = c_diskSizeGB c
                      /\ resolveFactors parseFloat cloudProviders ciAggregated
                           (c_providerSettings c)
                         = Ok (p_PUE p, p_gCO2ekWh p)) new
       /\ (forall c, In c clusters ->
                     belowM10 (instanceSizeName (c_providerSettings c)) = false ->
                     exists p, In p new /\ p_cluster p = c_name c).
Proof.
  revert processes processes' mapped.
  induction clusters as [|c clusters IH]; intros processes processes' mapped Hmap.
  - simpl in Hmap. injection Hmap as <- <-. split; [reflexivity|].
    exists []. split; [now rewrite app_nil_r|]. split; [constructor | intros c []].
  - cbn [mapClusters] in Hmap.
    destruct (clusterStep _ _ _ processes c) as [[ps1 r]|e] eqn:Hstep;
      simpl in Hmap; [|discriminate].
    destruct (mapClusters _ _ _ ps1 clusters) as [[ps2 rs]|e] eqn:Hrest;
      simpl in Hmap; [|discriminate].
    injection Hmap as <- <-.
    destruct (IH _ _ _ Hrest) as (Hkept & new & -> & Hnew & Hhas).
    assert (Hweaken :
      Forall (fun p =>
                exists c0, In c0 (c :: clusters)
                  /\ belowM10 (instanceSizeName (c_providerSettings c0)) = false
                  /\ p_cluster p = c_name c0
                  /\ p_providerSettings p = c_providerSettings c0
                  /\ p_diskSizeGb p = c_diskSizeGB c0
                  /\ resolveFactors parseFloat cloudProviders ciAggregated
                       (c_providerSettings c0)
                     = Ok (p_PUE p, p_gCO2ekWh p)) new).
    { eapply Forall_impl; [exact Hnew|]. intros p (c0 & Hin & H).
      exists c0. split; [now right | exact H]. }
    apply clusterStep_cases in Hstep
      as [(Hsmall & -> & ->)|(Hbig & PUE & ci & Hres & -> & ->)].
    + split.
      * cbn [List.filter]. rewrite Hsmall. simpl. exact Hkept.
      * exists new. split; [reflexivity|]. split; [exact Hweaken|].
        intros c0 [<-|Hin] Hc0; [congruence | now apply Hhas].
    + split.
      * cbn [List.filter]. rewrite Hbig. simpl.
        unfold keptClusters in *. simpl. now rewrite Hkept.
      * exists (clusterProcesses c PUE ci ++ new)%list.
        split; [now rewrite app_assoc|]. split.
        -- apply Forall_app. split; [|exact Hweaken].
           apply Forall_forall. intros p Hp.
           apply list_elem_of_In in Hp.
           destruct (clusterProcesses_factors c PUE ci p Hp) as (H1 & H2 & H3 & H4).
           exists c. split; [now left|]. split; [assumption|].
           split; [|split; [assumption|split; [assumption|]]].
           ++ unfold clusterProcesses in Hp. apply in_map_iff in Hp as (h & <- & _).
              reflexivity.
           ++ now rewrite H1, H2.
        -- intros c0 [<-|Hin] Hc0.
           ++ pose proof (clusterProcesses_not_nil c PUE ci) as Hne.
              destruct (clusterProcesses c PUE ci) as [|p0 l] eqn:Hcp; [contradiction|].
              exists p0. split; [now left|].
              assert (Hp0 : In p0 (clusterProcesses c PUE ci)) by (rewrite Hcp; now left).
              unfold clusterProcesses in Hp0. apply in_map_iff in Hp0 as (h & <- & _).
              reflexivity.
           ++ destruct (Hhas c0 Hin Hc0) as (p & Hp & Hname).
              exists p. split; [|assumption]. apply in_or_app. now right.
Qed.

Lemma materialization_invariants_witness :
  keptClusters
    [Some (sampleCluster "M30" "AWS" "us-east-1"); None;
     Some (sampleCluster "M10" "GCP" "europe-west1")]
  = List.filter (fun c => negb (belowM10 (instanceSizeName (c_providerSettings c))))
      [sampleCluster "M30" "AWS" "us-east-1"; sampleCluster "M2" "AWS" "us-east-1";
       sampleCluster "M10" "GCP" "europe-west1"].
Proof.
  eapply (materialization_invariants parseDecimal sampleDatacenters sampleCI
            [sampleCluster "M30" "AWS" "us-east-1"; sampleCluster "M2" "AWS" "us-east-1";
             sampleCluster "M10" "GCP" "europe-west1"] []).
  reflexivity.
Defined.

(** ** Errors and NaN at the level of the fleet *)

(** X18. On binary64 numbers one NaN energy makes the fleet total NaN: the
    reduction does not throw and no other process can bring the total
    back. *)
Theorem totalCarbon_nan (energies : list float) :
  In nan energies -> totalCarbon energies = Ok nan.
Proof.
  destruct energies as [|e es]; [intros []|].
  intros Hin. unfold totalCarbon. simpl. f_equal.
  change (fold_left (fun a b => PrimFloat.add a (id b)) es e = nan).
  destruct Hin as [->|Hin].
  - clear. induction es as [|x es IH]; cbn [fold_left]; [reflexivity|].
    unfold id at 1. now rewrite float_add_nan_l.
  - now apply (running_total_nan id es nan).
Qed.

Lemma totalCarbon_nan_witness :
  totalCarbon [380.16719999999998%float; nan; 12.5%float] = Ok nan.
Proof. apply (totalCarbon_nan [380.16719999999998%float; nan; 12.5%float]). simpl. auto. Defined.

Lemma mapClusters_throw {num : Type} `{!Number num} (parseFloat : string -> num)
  (cloudProviders ciAggregated : list (list string)) (clusters : list (@Cluster num))
  (c : @Cluster num) (processes : list Process) :
  In c clusters ->
  (forall ps, clusterStep parseFloat cloudProviders ciAggregated ps c = Throw TypeError) ->
  mapClusters parseFloat cloudProviders ciAggregated processes clusters = Throw TypeError.
Proof.
  intros Hin Hc. revert processes.
  induction clusters as [|a clusters IH]; intros processes; [destruct Hin|].
  cbn [mapClusters]. destruct Hin as [->|Hin].
  - rewrite Hc. reflexivity.
  - destruct (clusterStep _ _ _ processes a) as [[ps r]|[]]; simpl; [|reflexivity].
    rewrite (IH Hin ps). reflexivity.
Qed.

(** X19. A lookup that throws stops everything: when the resolution of one
    cluster that is not M0, M2 or M5 throws (its lookup meets a row it
    cannot read), [main] throws, whatever the other clusters are; a cluster
    below M10 is never looked up. *)
Theorem main_aborts_on_lookup_error {num : Type} `{!Number num}
  (parseFloat : string -> num) (cloudProviders ciAggregated : list (list string))
  (hardwareSpec : gmap string (gmap string Hardware))
  (fetchMeasurements : string -> option Measurements) (clusters : list Cluster)
  (c : Cluster) :
  In c clusters ->
  belowM10 (instanceSizeName (c_providerSettings c)) = false ->
  resolveFactors parseFloat cloudProviders ciAggregated (c_providerSettings c)
  = Throw TypeError ->
  main parseFloat cloudProviders ciAggregated hardwareSpec fetchMeasurements clusters
  = Throw TypeError.
Proof.
  intros Hin Hbig Hres. unfold main.
  rewrite (mapClusters_throw parseFloat cloudProviders ciAggregated clusters c [] Hin);
    [reflexivity|].
  intros ps. unfold clusterStep.
  change (bool_decide (instanceSizeName (c_providerSettings c) = "M0")
          || bool_decide (instanceSizeName (c_providerSettings c) = "M2")
          || bool_decide (instanceSizeName (c_providerSettings c) = "M5"))
    with (belowM10 (instanceSizeName (c_providerSettings c))).
  rewrite Hbig, Hres. reflexivity.
Qed.

Lemma main_aborts_on_lookup_error_witness :
  main parseDecimal shortDatacenters shortCI sampleHardware
    (fun _ => Some (sampleMeasurements 1%float))
    [sampleCluster "M30" "AWS" "us-east-1"; sampleCluster "M10" "GCP" "europe-west1"]
  = Throw TypeError
  /\ main parseDecimal shortDatacenters shortCI sampleHardware
       (fun _ => Some (sampleMeasurements 1%float))
       [sampleCluster "M30" "AWS" "us-east-1"; sampleCluster "M2" "GCP" "europe-west1"]
     = Ok 760.33439999999996%float.
Proof.
  split; [|vm_compute; reflexivity].
  apply (main_aborts_on_lookup_error parseDecimal shortDatacenters shortCI sampleHardware
           (fun _ => Some (sampleMeasurements 1%float))
           [sampleCluster "M30" "AWS" "us-east-1"; sampleCluster "M10" "GCP" "europe-west1"]
           (sampleCluster "M10" "GCP" "europe-west1")).
  - right. left. reflexivity.
  - reflexivity.
  - reflexivity.
Defined.
